(** * cache3.base: the backend-agnostic cache contract

    A shallow embedding of [src/cache3/base.py] (class [BaseCache]) and the
    properties of its key codec, timeout resolver, eviction dispatcher,
    batch fetch, memoizer and configuration entry point.

    Conventions of the embedding.
    - Python objects are terms of [value]; [VEmpty] is the sentinel
      [cache3.utils.empty], [VObject] the builtin type [object].
    - A method of [BaseCache] is a computation [Py A]: a function from the
      world (the cache object, the clock, the emitted warnings, the log of
      calls to memoized functions and the backend's own storage) to an
      outcome (a returned value or a raised exception) and the new world.
    - Python numbers ([Number = Union[int, float]]) are an abstract type
      [Num] with the operations the code uses ([+], [==], [<]); nothing
      below depends on how they round. *)

From Stdlib Require Import ZArith Ascii String List Lia.
From stdpp Require Import gmap strings list fin_maps pretty.

(** ** Python values, exceptions and warnings *)

#[warnings="-register-all"]
Inductive value {Num : Type} : Type :=
| VNone                              (* None *)
| VEmpty                             (* cache3.utils.empty, compared with [is] *)
| VObject                            (* the builtin type [object] *)
| VNum (n : Num)                     (* an int or a float *)
| VStr (s : string)                  (* a str *)
| VTuple (xs : list value)           (* a tuple *)
| VFunc (name : string).             (* a function or bound method *)
Arguments value : clear implicits.

(** [callable(v)] *)
Definition callable {Num} (v : value Num) : bool :=
  match v with
  | VObject | VFunc _ => true
  | _ => false
  end.

(** [isinstance(v, str)] *)
Definition is_str {Num} (v : value Num) : bool :=
  match v with
  | VStr _ => true
  | _ => false
  end.

(** [v is empty] *)
Definition is_empty {Num} (v : value Num) : bool :=
  match v with
  | VEmpty => true
  | _ => false
  end.

Inductive exn_class : Type :=
| TypeError | ValueError | InvalidCacheKey | NotImplementedError.

(** An exception: its class and the message it was built with.  Exceptions
    raised by the interpreter itself carry no message here. *)
Record exn : Type := Exn { exn_cls : exn_class; exn_msg : option string }.

Inductive warning_class : Type := CacheKeyWarning | RuntimeWarning.

Record warning : Type := Warn { warn_cls : warning_class; warn_msg : string }.

Inductive outcome (A : Type) : Type :=
| Return (a : A)
| Raise (e : exn).
Arguments Return {A} a.
Arguments Raise {A} e.

(** ** What the module imports *)

(** The arithmetic of Python numbers used by the module. *)
Class Number (Num : Type) : Type := {
  num_add : Num → Num → Num;      (* a + b *)
  num_eqb : Num → Num → bool;     (* a == b *)
  num_ltb : Num → Num → bool;     (* a < b *)
  num_of_Z : Z → Num              (* an integer literal *)
}.

(** The builtins [str(v)] and [type(v).__name__]; both depend on the
    interpreter for functions and plain objects. *)
Class Interp (Num : Type) : Type := {
  py_str : value Num → string;
  py_type_name : value Num → string
}.

(** The constants imported from [cache3.setting]; their values are not part
    of [base.py] and are left open. *)
Class Setting (Num : Type) : Type := {
  DEFAULT_TAG : string;
  DEFAULT_TIMEOUT : Num;
  MAX_TIMEOUT : Num;
  MIN_TIMEOUT : Num;
  MAX_KEY_LENGTH : Z;
  DEFAULT_NAME : string;
  DEFAULT_MAX_SIZE : Num;
  DEFAULT_EVICT : string;
  DEFAULT_CULL_SIZE : Num;
  EVICT_LFU : string;
  EVICT_FIFO : string;
  EVICT_LRU : string
}.

(** ** String builtins *)

Definition colon : ascii := ":"%char.

(** [c in s] for a one-character needle [c]: Python's substring test is then
    character membership. *)
Fixpoint has_char (c : ascii) (s : string) : bool :=
  match s with
  | EmptyString => false
  | String a s' => if Ascii.eqb a c then true else has_char c s'
  end.

(** [s.rsplit(c, 1)] when [c] occurs in [s]: the text before and after the
    last occurrence of [c]; [None] when [c] does not occur. *)
Fixpoint rsplit1 (c : ascii) (s : string) : option (string * string) :=
  match s with
  | EmptyString => None
  | String a s' =>
      match rsplit1 c s' with
      | Some (l, r) => Some (String a l, r)
      | None => if Ascii.eqb a c then Some (EmptyString, s') else None
      end
  end.

(** [s.rsplit(c, 1)]: a list of one or two strings. *)
Definition rsplit (c : ascii) (s : string) : list string :=
  match rsplit1 c s with
  | Some (l, r) => [l; r]
  | None => [s]
  end.

(** [s[:n]] and [s[-n:]] for [n > 0]. *)
Definition str_take (n : nat) (s : string) : string := String.substring 0 n s.
Definition str_take_last (n : nat) (s : string) : string :=
  String.substring (String.length s - n) n s.

(** ** The cache object and the world *)

(** The attributes of a [BaseCache] instance.  The class-level validators
    ([name], [timeout], [max_size], [evict], [cull_size]) are descriptors:
    an assignment [self.x = v] validates [v] and stores it in the private
    attribute [_x], which is the name [evictor], [get_backend_timeout] and
    [__repr__] read.  [members] is what [getattr(self, name)] resolves for
    the names the backend class defines (a property stands for the value it
    evaluates to). *)
Record cache {Num : Type} : Type := Cache {
  _name : string;
  _timeout : Num;
  _max_size : Num;
  _evict : string;
  _cull_size : Num;
  _kwargs : gmap string (value Num);
  members : gmap string (value Num)
}.
Arguments cache : clear implicits.

(** The arguments of one call: positional and keyword. *)
Definition call_args (Num : Type) : Type :=
  (list (value Num) * gmap string (value Num))%type.

Record world {Num Store : Type} : Type := World {
  self : cache Num;                          (* the cache object *)
  clock : Num;                               (* what [time.time()] reads *)
  warnings : list warning;                   (* emitted by [warnings.warn] *)
  calls : list (string * call_args Num);     (* memoized functions invoked *)
  store : Store                              (* the backend's storage *)
}.
Arguments world : clear implicits.

Section Monad.
Context {Num Store : Type}.

Definition Py (A : Type) : Type :=
  world Num Store → outcome A * world Num Store.

Definition ret {A} (a : A) : Py A := λ w, (Return a, w).

Definition raise {A} (e : exn) : Py A := λ w, (Raise e, w).

Definition bind {A B} (m : Py A) (k : A → Py B) : Py B :=
  λ w, match m w with
       | (Return a, w') => k a w'
       | (Raise e, w') => (Raise e, w')
       end.

(** A pure computation that may raise. *)
Definition lift {A} (o : outcome A) : Py A := λ w, (o, w).

(** The world after one more warning. *)
Definition warned (x : warning) (w : world Num Store) : world Num Store :=
  World Num Store (self w) (clock w) (warnings w ++ [x]) (calls w) (store w).

(** The world with the cache object replaced. *)
Definition with_self (c : cache Num) (w : world Num Store)
  : world Num Store :=
  World Num Store c (clock w) (warnings w) (calls w) (store w).

(** The world after one more logged call. *)
Definition logged (x : string * call_args Num) (w : world Num Store)
  : world Num Store :=
  World Num Store (self w) (clock w) (warnings w) (calls w ++ [x]) (store w).

(** [warnings.warn(msg, cls)] with the default filter: the warning is
    recorded and the call goes on. *)
Definition warn (cls : warning_class) (msg : string) : Py unit :=
  λ w, (Return tt, warned (Warn cls msg) w).

(** [time.time()] *)
Definition current : Py Num := λ w, (Return (clock w), w).

(** Reading and replacing the cache object. *)
Definition get_self : Py (cache Num) := λ w, (Return (self w), w).
Definition put_self (c : cache Num) : Py unit :=
  λ w, (Return tt, with_self c w).
End Monad.

Notation "x <- m ;; k" := (bind m (λ x, k))
  (at level 100, m at next level, right associativity,
   format "'[v' x  <-  m  ;;  '/' k ']'").
Notation "m ;;; k" := (bind m (λ _, k))
  (at level 100, right associativity).

(** ** KeyCodec: [make_key], [_get_key_tag], [validate_key],
    [make_and_validate_key] *)

Section KeyCodec.
Context {Num Store : Type} `{!Interp Num} `{!Setting Num}.

(** [BaseCache.make_key(key: str, tag: Optional[str]) -> str].  With
    [tag = None] the membership test [':' in tag] raises [TypeError]. *)
Definition make_key (key : string) (tag : option string) : outcome string :=
  match tag with
  | None => Raise (Exn TypeError None)
  | Some t =>
      if has_char colon t
      then Raise (Exn ValueError (Some "The ':' is not expected in tag."))
      else Return (key +:+ ":" +:+ t)
  end.

(** [BaseCache._get_key_tag(serial_key)] *)
Definition _get_key_tag (serial_key : string) : list string :=
  rsplit colon serial_key.

(** [BaseCache.validate_key(key)]: the pair [(msg, validated)]. *)
Definition validate_key (key : value Num)
  : Py (Num := Num) (Store := Store) (option string * bool) :=
  match key with
  | VStr s =>
      (if (Z.of_nat (String.length s) >? MAX_KEY_LENGTH)%Z
       then warn CacheKeyWarning
              ("The key is too long( > " +:+ pretty MAX_KEY_LENGTH +:+
               "), which can cause unnecessary waste of resources and risk: "
               +:+ str_take 10 s +:+ "..." +:+ str_take_last 10 s +:+ ".")
       else ret tt) ;;;
      ret (None, true)
  | _ =>
      ret (Some ("The key must be a string (" +:+ py_str key +:+ " is "
                 +:+ py_type_name key +:+ ")"), false)
  end.

(** [BaseCache.make_and_validate_key(key, tag=None)] *)
Definition make_and_validate_key (key : string) (tag : option string)
  : Py (Num := Num) (Store := Store) string :=
  key' <- lift (make_key key tag) ;;
  r <- validate_key (VStr key') ;;
  if r.2 then ret key' else raise (Exn InvalidCacheKey r.1).
End KeyCodec.

(** ** ConfigValidator: the class-level validators, [__init__], [config] *)

Section Validators.
Context {Num : Type} `{!Number Num}.

(** Modelled from the spec: [cache3.validate.NumberValidate], absent from
    the sources.  A bounded-number validator: a value that is not a number,
    or lies below [minvalue] or above [maxvalue], is rejected with an
    error; any other value is accepted as it is. *)
Definition NumberValidate (minvalue maxvalue : option Num)
    (v : value Num) : outcome Num :=
  match v with
  | VNum n =>
      if from_option (num_ltb n) false minvalue
         || from_option (λ hi, num_ltb hi n) false maxvalue
      then Raise (Exn ValueError None)
      else Return n
  | _ => Raise (Exn ValueError None)
  end.

(** Modelled from the spec: [cache3.validate.StringValidate], absent from
    the sources.  A bounded-string-length validator. *)
Definition StringValidate (minsize maxsize : option Z)
    (v : value Num) : outcome string :=
  match v with
  | VStr s =>
      let n := Z.of_nat (String.length s) in
      if from_option (Z.ltb n) false minsize
         || from_option (λ hi, Z.ltb hi n) false maxsize
      then Raise (Exn ValueError None)
      else Return s
  | _ => Raise (Exn ValueError None)
  end.

(** Modelled from the spec: [cache3.validate.EnumerateValidate], absent
    from the sources.  An enumerated-value validator: exactly the listed
    options are accepted. *)
Definition EnumerateValidate (options : list string)
    (v : value Num) : outcome string :=
  match v with
  | VStr s =>
      if bool_decide (s ∈ options) then Return s
      else Raise (Exn ValueError None)
  | _ => Raise (Exn ValueError None)
  end.

(** Sequencing of pure computations that may raise. *)
Definition and_then {A B} (o : outcome A) (k : A → outcome B) : outcome B :=
  match o with
  | Return a => k a
  | Raise e => Raise e
  end.
End Validators.

Section Config.
Context {Num Store : Type} `{!Number Num} `{!Setting Num}.

(** The validators declared in the class body of [BaseCache]. *)
Definition name_validator : value Num → outcome string :=
  StringValidate (Some 1%Z) (Some MAX_KEY_LENGTH).
Definition timeout_validator : value Num → outcome Num :=
  NumberValidate (Some MIN_TIMEOUT) (Some MAX_TIMEOUT).
Definition max_size_validator : value Num → outcome Num :=
  NumberValidate (Some (num_of_Z 0)) None.
Definition evict_validator : value Num → outcome string :=
  EnumerateValidate [EVICT_LRU; EVICT_FIFO; EVICT_LFU].
Definition cull_size_validator : value Num → outcome Num :=
  NumberValidate (Some (num_of_Z 0)) None.

(** [BaseCache.__init__] with [name], [timeout], [max_size] and the
    remaining keyword arguments [kwargs], on an instance
    of a class whose members are [mem].  Each assignment runs the
    validator of its field; an exception leaves no object behind. *)
Definition __init__ (mem : gmap string (value Num))
    (name timeout max_size : value Num)
    (kwargs : gmap string (value Num)) : outcome (cache Num) :=
  and_then (name_validator name) (λ n,
  and_then (timeout_validator timeout) (λ t,
  and_then (max_size_validator max_size) (λ m,
  and_then (evict_validator (VStr DEFAULT_EVICT)) (λ e,
  and_then (cull_size_validator (VNum (num_of_Z 10))) (λ k,
  Return (Cache Num n t m e k kwargs mem)))))).

(** Modelled from the spec: the read side of the validator descriptors of
    [cache3.validate], absent from the sources.  [self.timeout],
    [self.evict] and [self.cull_size] read the field as it was last
    accepted, which [base.py] itself reads under the private names
    [_timeout] and [_evict]. *)
Definition timeout (c : cache Num) : Num := _timeout c.
Definition evict (c : cache Num) : string := _evict c.
Definition cull_size (c : cache Num) : Num := _cull_size c.

(** Modelled from the spec: the write side of the validator descriptors of
    [cache3.validate], absent from the sources.  The assignment
    [self.evict = v] runs the validator of the field: a rejected value
    raises and the field retains its previous value, an accepted one is
    stored. *)
Definition set_evict (v : value Num) : Py (Num := Num) (Store := Store) unit :=
  e <- lift (evict_validator v) ;;
  c <- get_self ;;
  put_self (Cache Num (_name c) (_timeout c) (_max_size c) e
                  (_cull_size c) (_kwargs c) (members c)).

(** Modelled from the spec: the same descriptor protocol, for the
    assignment [self.cull_size = v]. *)
Definition set_cull_size (v : value Num)
  : Py (Num := Num) (Store := Store) unit :=
  k <- lift (cull_size_validator v) ;;
  c <- get_self ;;
  put_self (Cache Num (_name c) (_timeout c) (_max_size c) (_evict c)
                  k (_kwargs c) (members c)).

(** The world after [self.evict = e] and after [self.cull_size = k], for
    accepted values. *)
Definition with_evict (e : string) (w : world Num Store)
  : world Num Store :=
  let c := self w in
  with_self (Cache Num (_name c) (_timeout c) (_max_size c) e
                   (_cull_size c) (_kwargs c) (members c)) w.

Definition with_cull_size (k : Num) (w : world Num Store)
  : world Num Store :=
  let c := self w in
  with_self (Cache Num (_name c) (_timeout c) (_max_size c) (_evict c)
                   k (_kwargs c) (members c)) w.

(** [BaseCache.config]; [kwargs] is the dict of keyword arguments. *)
Definition config (kwargs : gmap string (value Num))
  : Py (Num := Num) (Store := Store) unit :=
  set_evict (default (VStr DEFAULT_EVICT) (kwargs !! "evict")) ;;;
  set_cull_size (default (VNum DEFAULT_CULL_SIZE) (kwargs !! "cull_size")).
End Config.

(** ** TimeoutResolver: [get_backend_timeout] *)

Section Timeout.
Context {Num Store : Type} `{!Number Num} `{!Setting Num}.

(** [BaseCache.get_backend_timeout(timeout=DEFAULT_TIMEOUT)]; the argument
    is a number or [None]. *)
Definition get_backend_timeout (timeout : option Num)
  : Py (Num := Num) (Store := Store) (option Num) :=
  timeout <-
    match timeout with
    | Some t =>
        if num_eqb t DEFAULT_TIMEOUT
        then c <- get_self ;; ret (Some (_timeout c))
        else ret (Some t)
    | None => ret None
    end ;;
  match timeout with
  | None => ret None
  | Some t => now <- current ;; ret (Some (num_add now t))
  end.

(** The resolved timeout of the contract: a number equal to the default
    sentinel stands for [self.timeout]. *)
Definition resolve_timeout (c : cache Num) (arg : option Num)
  : option Num :=
  match arg with
  | None => None
  | Some t => Some (if num_eqb t DEFAULT_TIMEOUT then timeout c else t)
  end.
End Timeout.

(** ** EvictionDispatcher: the property [evictor] *)

Section Evictor.
Context {Num Store : Type} `{!Interp Num}.

(** [getattr(obj, name, default)] *)
Definition getattr (c : cache Num) (name : string) (d : value Num)
  : value Num :=
  default d (members c !! name).

(** [pre + '%s' + post % arg]: a tuple on the right of [%] is the argument
    list, so it must have exactly one element; anything else is the one
    argument. *)
Definition format_s (pre post : string) (arg : value Num) : outcome string :=
  match arg with
  | VTuple [x] => Return (pre +:+ py_str x +:+ post)
  | VTuple _ => Raise (Exn TypeError None)
  | _ => Return (pre +:+ py_str arg +:+ post)
  end.

(** The operands for which [format_s] returns: all but the tuples that do
    not have exactly one element. *)
Definition formattable (v : value Num) : bool :=
  match v with
  | VTuple [_] => true
  | VTuple _ => false
  | _ => true
  end.

(** [BaseCache.evictor] *)
Definition evictor : Py (Num := Num) (Store := Store) (value Num) :=
  c <- get_self ;;
  let evictor := getattr c (_evict c) VEmpty in
  if is_empty evictor then
    warn RuntimeWarning
      ("Not found '" +:+ _evict c +:+
       "' evict method, it will cause thecache to grow without limit.") ;;;
    ret VObject
  else if negb (callable evictor) then
    msg <- lift (format_s "Invalid evict '"
                          "', It must a callable object." evictor) ;;
    warn RuntimeWarning msg ;;;
    ret VObject
  else ret evictor.
End Evictor.

(** ** The backend interface, BatchCompositor and Memoizer *)

(** The primitive operations a concrete backend supplies; [tag] and
    [default] are passed through as they are. *)
Class Backend (Num Store : Type) : Type := {
  get : string → value Num → value Num
        → Py (Num := Num) (Store := Store) (value Num);
  set : string → value Num → option Num → value Num
        → Py (Num := Num) (Store := Store) bool
}.

(** [BaseCache] itself: every primitive raises [NotImplementedError]. *)
Definition BaseCache (Num Store : Type) : Backend Num Store := {|
  get _ _ _ :=
    raise (Exn NotImplementedError
             (Some "subclasses of BaseCache must provide a get() method"));
  set _ _ _ _ :=
    raise (Exn NotImplementedError
             (Some "subclasses of BaseCache must provide a set() method."))
|}.

(** A Python function: its [__name__] and what a call does. *)
Record pyfunc {Num Store : Type} : Type := PyFunc {
  __name__ : string;
  body : call_args Num → Py (Num := Num) (Store := Store) (value Num)
}.
Arguments pyfunc : clear implicits.

Section Composed.
Context {Num Store : Type} `{!Backend Num Store}.

(** The loop of [get_many]: [returns] is the dict built so far. *)
Fixpoint get_many_loop (keys : list string) (tag : value Num)
    (returns : gmap string (value Num))
  : Py (Num := Num) (Store := Store) (gmap string (value Num)) :=
  match keys with
  | [] => ret returns
  | key :: keys' =>
      v <- get key VEmpty tag ;;
      get_many_loop keys' tag
        (if is_empty v then returns else <[key := v]> returns)
  end.

(** [BaseCache.get_many(keys, tag)] *)
Definition get_many (keys : list string) (tag : value Num)
  : Py (Num := Num) (Store := Store) (gmap string (value Num)) :=
  get_many_loop keys tag ∅.

(** The call of [func] on the wrapper's arguments; the call is logged. *)
Definition invoke (func : pyfunc Num Store) (args : call_args Num)
  : Py (Num := Num) (Store := Store) (value Num) :=
  (λ w, (Return tt, logged (__name__ func, args) w)) ;;;
  body func args.

(** The [wrapper] closure of [memoize]. *)
Definition wrapper (func : pyfunc Num Store) (tag : value Num)
    (timeout : option Num) (args : call_args Num)
  : Py (Num := Num) (Store := Store) (value Num) :=
  v <- get (__name__ func) VEmpty tag ;;
  if is_empty v then
    v' <- invoke func args ;;
    set (__name__ func) v' timeout tag ;;;
    ret v'
  else ret v.

(** The [decorator] closure of [memoize]. *)
Definition decorator (tag : value Num) (timeout : option Num)
    (func : pyfunc Num Store)
  : call_args Num → Py (Num := Num) (Store := Store) (value Num) :=
  wrapper func tag timeout.

(** [BaseCache.memoize(tag, timeout)] *)
Definition memoize (tag : value Num) (timeout : option Num)
  : outcome (pyfunc Num Store → call_args Num
             → Py (Num := Num) (Store := Store) (value Num)) :=
  if callable tag
  then Raise (Exn TypeError
                (Some "Mame cannot be callable. ('@cache.memoize()' not '@cache.memoize')."))
  else Return (decorator tag timeout).
End Composed.

(** ** KeyCodec on raw keys of any type *)

Section KeyCodecAny.
Context {Num : Type} `{!Interp Num}.

(** [BaseCache.make_key] on a raw key that need not be a string.  The
    signature annotates [key: str], but the body puts no check on it: the
    format ['%s:%s' % (key, tag)] turns whatever object it is given into
    its [str]. *)
Definition make_key_any (key : value Num) (tag : option string)
  : outcome string :=
  match tag with
  | None => Raise (Exn TypeError None)
  | Some t =>
      if has_char colon t
      then Raise (Exn ValueError (Some "The ':' is not expected in tag."))
      else Return (py_str key +:+ ":" +:+ t)
  end.
End KeyCodecAny.

(** ** Counters: [incr] and [decr] *)

(** Unary minus on Python numbers. *)
Class Negation (Num : Type) : Type := {
  num_neg : Num → Num             (* -a *)
}.

(** The primitive [incr(key, delta, tag)] of a concrete backend. *)
Class Counter (Num Store : Type) : Type := {
  incr : string → Num → value Num → Py (Num := Num) (Store := Store) Num
}.

(** [BaseCache.incr]: the stub of the base class. *)
Definition BaseCounter (Num Store : Type) : Counter Num Store := {|
  incr _ _ _ :=
    raise (Exn NotImplementedError
             (Some "subclasses of BaseCache must provide a incr() method"))
|}.

Section Decr.
Context {Num Store : Type} `{!Negation Num} `{!Counter Num Store}.

(** [BaseCache.decr(key, delta, tag)] *)
Definition decr (key : string) (delta : Num) (tag : value Num)
  : Py (Num := Num) (Store := Store) Num :=
  incr key (num_neg delta) tag.
End Decr.

(** ** A concrete instance, for runs on explicit inputs *)

Module Sample.
Local Open Scope Z_scope.
(** Python ints as numbers. *)
Definition Z_number : Number Z := {|
  num_add := Z.add; num_eqb := Z.eqb; num_ltb := Z.ltb; num_of_Z := id
|}.

(** A rendering of values; addresses of functions and objects are left
    out. *)
Definition interp : Interp Z := {|
  py_str v :=
    match v with
    | VNone => "None"
    | VEmpty => "<empty>"
    | VObject => "<class 'object'>"
    | VNum n => pretty n
    | VStr s => s
    | VTuple _ => "(...)"
    | VFunc name => "<function " +:+ name +:+ ">"
    end;
  py_type_name v :=
    match v with
    | VNone => "NoneType"
    | VEmpty => "object"
    | VObject => "type"
    | VNum _ => "int"
    | VStr _ => "str"
    | VTuple _ => "tuple"
    | VFunc _ => "function"
    end
|}.

(** One choice of the constants of [cache3.setting]: the three policies
    are named after the backend methods [lru_evict], [fifo_evict] and
    [lfu_evict], and LRU is the default policy, as the docstring of
    [evictor] says. *)
Definition setting : Setting Z := {|
  DEFAULT_TAG := "default";
  DEFAULT_TIMEOUT := 300;
  MAX_TIMEOUT := 31536000;
  MIN_TIMEOUT := 0;
  MAX_KEY_LENGTH := 1024;
  DEFAULT_NAME := "default.cache3";
  DEFAULT_MAX_SIZE := 1024;
  DEFAULT_EVICT := "lru_evict";
  DEFAULT_CULL_SIZE := 10;
  EVICT_LFU := "lfu_evict";
  EVICT_FIFO := "fifo_evict";
  EVICT_LRU := "lru_evict"
|}.

#[local] Existing Instances Z_number interp setting.

(** A backend that keeps its entries in a dict under the composed key and
    never expires them. *)
Definition dict_key (key : string) (tag : value Z) : outcome string :=
  match tag with
  | VNone => make_key key None
  | VStr t => make_key key (Some t)
  | _ => Raise (Exn TypeError None)
  end.

Definition dict_backend : Backend Z (gmap string (value Z)) := {|
  get key dflt tag :=
    sk <- lift (dict_key key tag) ;;
    λ w, (Return (default dflt (store w !! sk)), w);
  set key v _ tag :=
    sk <- lift (dict_key key tag) ;;
    λ w, (Return true,
          World Z (gmap string (value Z)) (self w) (clock w) (warnings w)
                (calls w) (<[sk := v]> (store w)))
|}.

#[local] Existing Instance dict_backend.

(** The cache [BaseCache()] of a class with members [mem], at clock
    reading [1000], over an empty dict. *)
Definition cache_of (mem : gmap string (value Z)) : cache Z :=
  Cache Z DEFAULT_NAME DEFAULT_TIMEOUT DEFAULT_MAX_SIZE DEFAULT_EVICT 10
        ∅ mem.

Definition world_of (mem : gmap string (value Z))
    (st : gmap string (value Z)) : world Z (gmap string (value Z)) :=
  World Z (gmap string (value Z)) (cache_of mem) 1000 [] [] st.

(** A base cache with no member of its own. *)
Definition world0 : world Z (gmap string (value Z)) := world_of ∅ ∅.

(** A backend class with the attribute [lru_evict = ()]. *)
Definition world_tuple : world Z (gmap string (value Z)) :=
  world_of {["lru_evict" := VTuple []]} ∅.

(** The function [def first(x): return x]. *)
Definition first : pyfunc Z (gmap string (value Z)) := {|
  __name__ := "first";
  body args := ret (hd VNone args.1)
|}.
(** A backend class with the method [lru_evict]. *)
Definition world_lru : world Z (gmap string (value Z)) :=
  world_of {["lru_evict" := VFunc "lru_evict"]} ∅.

(** A backend class with the attribute [lru_evict = 5]. *)
Definition world_number : world Z (gmap string (value Z)) :=
  world_of {["lru_evict" := VNum 5]} ∅.

Definition Z_negation : Negation Z := {| num_neg := Z.opp |}.

(** [incr] over the dict: the entry must hold a number, which is replaced
    by its sum with [delta]; a missing entry is a [ValueError]. *)
Definition dict_counter : Counter Z (gmap string (value Z)) := {|
  incr key delta tag :=
    sk <- lift (dict_key key tag) ;;
    λ w, match store w !! sk with
         | Some (VNum n) =>
             (Return (n + delta),
              World Z (gmap string (value Z)) (self w) (clock w) (warnings w)
                    (calls w) (<[sk := VNum (n + delta)]> (store w)))
         | _ => (Raise (Exn ValueError None), w)
         end
|}.

(** The counter stored under ['hits'] and the tag ['t']. *)
Definition read_hits (w : world Z (gmap string (value Z))) : option Z :=
  match store w !! "hits:t" with
  | Some (VNum n) => Some n
  | _ => None
  end.

(** The function [def plus_one(x): return x + 1]. *)
Definition plus_one : pyfunc Z (gmap string (value Z)) := {|
  __name__ := "plus_one";
  body args :=
    match hd VNone args.1 with
    | VNum n => ret (VNum (n + 1))
    | _ => raise (Exn TypeError None)
    end
|}.

(** The function [def boom(): raise ValueError]. *)
Definition boom : pyfunc Z (gmap string (value Z)) := {|
  __name__ := "boom";
  body _ := raise (Exn ValueError None)
|}.

(** Another function that is named [first]: [def first(x): return 0]. *)
Definition first' : pyfunc Z (gmap string (value Z)) := {|
  __name__ := "first";
  body _ := ret (VNum 0)
|}.
End Sample.

(** * Properties *)

(** Unfolds the plumbing of [Py]. *)
Ltac py_unfold :=
  unfold bind, ret, raise, lift, warn, current, get_self, put_self in *.

Ltac py_simpl := py_unfold; simpl in *.

(** ** Running a sequence *)

Section MonadFacts.
Context {Num Store : Type}.
Implicit Types (w : world Num Store).

Lemma bind_return {A B} (m : Py A) (k : A → Py B) w a w' :
  m w = (Return a, w') → bind m k w = k a w'.
Proof. intros H. unfold bind. by rewrite H. Qed.

Lemma bind_raise {A B} (m : Py A) (k : A → Py B) w e w' :
  m w = (Raise e, w') → bind m k w = (Raise e, w').
Proof. intros H. unfold bind. by rewrite H. Qed.

Lemma bind_lift {A B} (o : outcome A) (k : A → Py (Num := Num) B) w :
  bind (lift o) k w
  = match o with Return a => k a w | Raise e => (Raise e, w) end.
Proof. by destruct o. Qed.
End MonadFacts.

(** ** String builtins *)

Lemma has_char_app c a b :
  has_char c (a +:+ b) = has_char c a || has_char c b.
Proof.
  induction a as [|x a IH]; simpl; [done|].
  destruct (Ascii.eqb x c); [done|apply IH].
Qed.

(** [has_char] is occurrence: the string splits around the character. *)
Lemma has_char_spec c s :
  has_char c s = true ↔ ∃ a b, s = a +:+ String c b.
Proof.
  split.
  - induction s as [|x s IH]; simpl; [done|].
    destruct (Ascii.eqb_spec x c) as [->|Hne].
    + intros _. by exists EmptyString, s.
    + intros [a [b ->]]%IH. by exists (String x a), b.
  - intros (a & b & ->). rewrite has_char_app. simpl.
    rewrite Ascii.eqb_refl. apply orb_true_r.
Qed.

Lemma rsplit1_absent c s : has_char c s = false → rsplit1 c s = None.
Proof.
  induction s as [|x s IH]; simpl; [done|].
  destruct (Ascii.eqb x c); [done|]. intros H. by rewrite IH.
Qed.

(** The split is at the last occurrence: whatever precedes it, the text
    after it is free of the separator. *)
Lemma rsplit1_last c k t :
  has_char c t = false → rsplit1 c (k +:+ String c t) = Some (k, t).
Proof.
  intros Ht. induction k as [|x k IH]; simpl.
  - by rewrite rsplit1_absent, Ascii.eqb_refl.
  - by rewrite IH.
Qed.

Lemma rsplit1_inv c s l r :
  rsplit1 c s = Some (l, r) → s = l +:+ String c r ∧ has_char c r = false.
Proof.
  revert l. induction s as [|x s IH]; simpl; intros l; [done|].
  destruct (rsplit1 c s) as [[l' r']|] eqn:E.
  - intros [= <- <-]. destruct (IH l' eq_refl) as [-> Hr]. done.
  - destruct (Ascii.eqb_spec x c) as [->|]; [|done].
    intros [= <- <-]. split; [done|].
    destruct (has_char c s) eqn:Hs; [|done].
    apply has_char_spec in Hs as (a & b & ->).
    clear IH. exfalso. revert E. clear.
    induction a as [|y a IH]; simpl.
    + destruct (rsplit1 c b) as [[??]|]; [done|]. by rewrite Ascii.eqb_refl.
    + destruct (rsplit1 c (a +:+ String c b)) as [[??]|]; [done|].
      by intros.
Qed.

(** ** KeyCodec *)

Section KeyCodecFacts.
Context {Num Store : Type} `{!Interp Num} `{!Setting Num}.
Implicit Types (w : world Num Store) (key : value Num).

Lemma make_key_ok k t :
  has_char colon t = false → make_key k (Some t) = Return (k +:+ ":" +:+ t).
Proof. intros H. unfold make_key. by rewrite H. Qed.

(** C5: for every raw key [k], with or without separators, and every tag
    [t] free of the separator, [make_key] composes [k:t] and
    [_get_key_tag] splits it back into [k] and [t]. *)
Theorem make_key_roundtrip (k t : string) :
  has_char colon t = false →
  make_key k (Some t) = Return (k +:+ ":" +:+ t)
  ∧ _get_key_tag (k +:+ ":" +:+ t) = [k; t].
Proof.
  intros Ht. split; [by apply make_key_ok|].
  unfold _get_key_tag, rsplit.
  change (k +:+ ":" +:+ t) with (k +:+ String colon t).
  by rewrite rsplit1_last.
Qed.

(** C9: a tag in which the separator occurs is refused by [make_key] with
    a [ValueError], whatever the raw key. *)
Theorem make_key_separator_in_tag (key t : string) :
  (∃ a b, t = a +:+ ":" +:+ b) →
  make_key key (Some t)
  = Raise (Exn ValueError (Some "The ':' is not expected in tag.")).
Proof.
  intros Ht. unfold make_key.
  assert (has_char colon t = true) as ->; [|done].
  apply has_char_spec. exact Ht.
Qed.

(** C8: [validate_key] never raises; it reports failure, with a message,
    exactly for the keys that are not strings; a string longer than
    [MAX_KEY_LENGTH] is accepted after one [CacheKeyWarning], a shorter
    one silently. *)
Theorem validate_key_spec key w :
  ∃ msg validated w',
    validate_key key w = (Return (msg, validated), w')
    ∧ (validated = false ↔ is_str key = false)
    ∧ (validated = false → is_Some msg ∧ w' = w)
    ∧ (validated = true → msg = None)
    ∧ (∀ s, key = VStr s →
         (Z.of_nat (String.length s) > MAX_KEY_LENGTH)%Z →
         validated = true
         ∧ ∃ text, warnings w' = warnings w ++ [Warn CacheKeyWarning text])
    ∧ (∀ s, key = VStr s →
         (Z.of_nat (String.length s) ≤ MAX_KEY_LENGTH)%Z → w' = w).
Proof.
  destruct key as [| | |n|s|xs|f];
    try (eexists _, false, w; repeat split; eauto; done).
  unfold validate_key.
  destruct (Z.gtb_spec (Z.of_nat (String.length s)) MAX_KEY_LENGTH) as [Hgt|Hle].
  - eexists None, true, _. py_simpl.
    split; [reflexivity|]. split; [done|]. split; [done|].
    split; [done|]. split.
    + intros s' [= <-] _. eauto.
    + intros s' [= <-] ?. lia.
  - exists None, true, w. py_simpl.
    split; [reflexivity|]. split; [done|]. split; [done|].
    split; [done|]. split; [|done].
    intros s' [= <-] ?. lia.
Qed.

Lemma validate_key_str s w :
  ∃ w', validate_key (VStr s) w = (Return (None, true), w')
        ∧ self w' = self w ∧ clock w' = clock w ∧ calls w' = calls w
        ∧ store w' = store w.
Proof.
  unfold validate_key.
  destruct (Z.gtb _ _); py_simpl; eauto 10.
Qed.

(** C10: with a string tag free of the separator, [make_and_validate_key]
    returns the composed key for every raw key; it raises nothing, so in
    particular no [InvalidCacheKey]. *)
Theorem make_and_validate_key_ok (key t : string) w :
  has_char colon t = false →
  ∃ w', make_and_validate_key key (Some t) w
        = (Return (key +:+ ":" +:+ t), w')
        ∧ self w' = self w ∧ store w' = store w
        ∧ ∀ msg, (make_and_validate_key key (Some t) w).1
                 ≠ Raise (Exn InvalidCacheKey msg).
Proof.
  intros Ht. unfold make_and_validate_key.
  rewrite bind_lift, (make_key_ok _ _ Ht).
  destruct (validate_key_str (key +:+ ":" +:+ t) w)
    as (w' & Hv & ? & ? & ? & ?).
  rewrite (bind_return _ _ _ _ _ Hv). simpl.
  exists w'. repeat split; try done.
Qed.

(** C2: called without a tag, [make_and_validate_key] hands [None] to
    [make_key], whose membership test raises [TypeError]; the default tag
    is not substituted and no key is returned. *)
Theorem make_and_validate_key_absent_tag (key : string) w :
  make_and_validate_key key None w = (Raise (Exn TypeError None), w)
  ∧ (make_and_validate_key key None w).1
    ≠ Return (key +:+ ":" +:+ DEFAULT_TAG).
Proof. split; [reflexivity|]. by cbn. Qed.
End KeyCodecFacts.

(** ** ConfigValidator *)

Section ConfigFacts.
Context {Num Store : Type} `{!Number Num} `{!Setting Num}.
Implicit Types (w : world Num Store) (c : cache Num).

(** A rejected assignment leaves the field as it was. *)
Lemma set_evict_spec v w :
  set_evict v w
  = match evict_validator v with
    | Return e => (Return tt, with_evict e w)
    | Raise e => (Raise e, w)
    end.
Proof. unfold set_evict. rewrite bind_lift. by destruct (evict_validator v). Qed.

Lemma set_cull_size_spec v w :
  set_cull_size v w
  = match cull_size_validator v with
    | Return k => (Return tt, with_cull_size k w)
    | Raise e => (Raise e, w)
    end.
Proof.
  unfold set_cull_size. rewrite bind_lift.
  by destruct (cull_size_validator v).
Qed.

(** C1, as amended: [config] assigns [evict] and then [cull_size], each
    through its validator, an option that is not supplied taking the
    process-wide default.  When the [evict] value is rejected nothing
    changes; when it is accepted and the [cull_size] value is rejected,
    [evict] holds the new value, [cull_size] its old one, and the error
    propagates; when both are accepted both fields are replaced. *)
Theorem config_sequential (kwargs : gmap string (value Num)) w :
  let ev := default (VStr DEFAULT_EVICT) (kwargs !! "evict") in
  let cs := default (VNum DEFAULT_CULL_SIZE) (kwargs !! "cull_size") in
  config kwargs w
  = match evict_validator ev, cull_size_validator cs with
    | Raise e, _ => (Raise e, w)
    | Return e', Raise e => (Raise e, with_evict e' w)
    | Return e', Return k => (Return tt, with_cull_size k (with_evict e' w))
    end.
Proof.
  intros ev cs. unfold config. fold ev cs.
  unfold bind at 1. rewrite set_evict_spec.
  destruct (evict_validator ev) as [e'|e].
  - rewrite set_cull_size_spec. by destruct (cull_size_validator cs).
  - by destruct (cull_size_validator cs).
Qed.

(** What the validators accept is stored unchanged. *)
Lemma NumberValidate_inv lo hi (v : value Num) n :
  NumberValidate lo hi v = Return n →
  v = VNum n
  ∧ from_option (num_ltb n) false lo = false
  ∧ from_option (λ h, num_ltb h n) false hi = false.
Proof.
  unfold NumberValidate. destruct v; try done.
  destruct (from_option _ _ lo) eqn:E1; [done|].
  destruct (from_option _ _ hi) eqn:E2; [done|].
  by intros [= <-].
Qed.

Lemma StringValidate_inv lo hi (v : value Num) s :
  StringValidate lo hi v = Return s → v = VStr s.
Proof.
  unfold StringValidate. destruct v; try done.
  destruct (_ || _); [done|]. by intros [= <-].
Qed.

Lemma EnumerateValidate_inv opts (v : value Num) s :
  EnumerateValidate opts v = Return s → v = VStr s ∧ s ∈ opts.
Proof.
  unfold EnumerateValidate. destruct v; try done.
  case_bool_decide; [|done]. by intros [= <-].
Qed.

(** Construction stores the validated arguments in the private fields. *)
Lemma __init___fields mem name tmo max_size kwargs c :
  __init__ mem name tmo max_size kwargs = Return c →
  name = VStr (_name c) ∧ tmo = VNum (_timeout c)
  ∧ max_size = VNum (_max_size c) ∧ _evict c = DEFAULT_EVICT
  ∧ _cull_size c = num_of_Z 10 ∧ _kwargs c = kwargs ∧ members c = mem.
Proof.
  unfold __init__, and_then.
  destruct (name_validator name) as [n|] eqn:En; [|done].
  destruct (timeout_validator tmo) as [t|] eqn:Et; [|done].
  destruct (max_size_validator max_size) as [m|] eqn:Em; [|done].
  destruct (evict_validator _) as [e|] eqn:Ee; [|done].
  destruct (cull_size_validator _) as [k|] eqn:Ek; [|done].
  intros [= <-]. simpl.
  unfold name_validator, timeout_validator, max_size_validator,
    evict_validator, cull_size_validator in *.
  apply StringValidate_inv in En. apply NumberValidate_inv in Et as [? _].
  apply NumberValidate_inv in Em as [? _].
  apply EnumerateValidate_inv in Ee as [[= ?] _].
  apply NumberValidate_inv in Ek as [[= ?] _]. done.
Qed.
End ConfigFacts.

(** ** TimeoutResolver *)

Section TimeoutFacts.
Context {Num Store : Type} `{!Number Num} `{!Setting Num}.
Implicit Types (w : world Num Store) (c : cache Num).

Lemma get_backend_timeout_resolve (arg : option Num) w :
  get_backend_timeout arg w
  = (Return (num_add (clock w) <$> resolve_timeout (self w) arg), w).
Proof.
  unfold get_backend_timeout, resolve_timeout, timeout.
  destruct arg as [t|]; [|done].
  by destruct (num_eqb t DEFAULT_TIMEOUT).
Qed.

(** C3: on a cache constructed with timeout [t0], [get_backend_timeout]
    returns [None] for the argument [None]; for a number equal to
    [DEFAULT_TIMEOUT] it returns the clock reading plus [t0], the value of
    [self.timeout]; for any other number it returns the clock reading plus
    that number.  It changes nothing. *)
Theorem get_backend_timeout_spec mem name (t0 : Num) max_size kwargs
    (arg : option Num) w :
  __init__ mem name (VNum t0) max_size kwargs = Return (self w) →
  timeout (self w) = t0
  ∧ get_backend_timeout arg w
    = (Return match arg with
              | None => None
              | Some t =>
                  Some (num_add (clock w)
                          (if num_eqb t DEFAULT_TIMEOUT then t0 else t))
              end, w).
Proof.
  intros Hinit. apply __init___fields in Hinit as (_ & [= Ht] & _).
  subst t0. split; [done|].
  rewrite get_backend_timeout_resolve. unfold resolve_timeout.
  by destruct arg as [t|].
Qed.
End TimeoutFacts.

(** ** EvictionDispatcher *)

Section EvictorFacts.
Context {Num Store : Type} `{!Interp Num}.
Implicit Types (w : world Num Store) (v : value Num).

(** X13: a policy name that resolves to no member: one [RuntimeWarning],
    and the callable [object] is returned. *)
Lemma evictor_missing w :
  members (self w) !! _evict (self w) = None →
  ∃ text, evictor w = (Return VObject, warned (Warn RuntimeWarning text) w)
          ∧ callable (VObject : value Num) = true.
Proof.
  intros Hm. unfold evictor, getattr. py_simpl. rewrite Hm. simpl.
  eexists. split; reflexivity.
Qed.

(** X14: a member that is callable is returned as it is, silently: the
    world is untouched. *)
Lemma evictor_found v w :
  members (self w) !! _evict (self w) = Some v → callable v = true →
  evictor w = (Return v, w).
Proof.
  intros Hm Hc. unfold evictor, getattr. py_simpl. rewrite Hm. simpl.
  destruct v; try done.
Qed.

(** X15: a member that is not callable, other than a tuple that does not
    have exactly one element: one [RuntimeWarning], and the callable
    [object] is returned. *)
Lemma evictor_not_callable v w :
  members (self w) !! _evict (self w) = Some v →
  callable v = false → is_empty v = false → formattable v = true →
  ∃ text, evictor w = (Return VObject, warned (Warn RuntimeWarning text) w).
Proof.
  intros Hm Hc He Hf. unfold evictor, getattr. py_simpl. rewrite Hm. simpl.
  rewrite He, Hc. simpl.
  destruct v as [| | |n|s|xs|f]; try done; simpl; eauto.
  destruct xs as [|x [|y xs]]; try done. simpl. eauto.
Qed.

(** C4: when the policy name resolves to a tuple that does not have
    exactly one element, a member that is not invokable, reading
    [evictor] raises [TypeError] while it formats the warning: nothing is
    returned and no warning is emitted. *)
Theorem evictor_tuple_member_raises (xs : list (value Num)) w :
  members (self w) !! _evict (self w) = Some (VTuple xs) →
  length xs ≠ 1 →
  callable (VTuple xs) = false
  ∧ evictor w = (Raise (Exn TypeError None), w).
Proof.
  intros Hm Hlen. split; [done|].
  unfold evictor, getattr. py_simpl. rewrite Hm. simpl.
  destruct xs as [|x [|y xs]]; done.
Qed.
End EvictorFacts.

(** ** BatchCompositor and Memoizer *)

Section ComposedFacts.
Context {Num Store : Type} `{!Backend Num Store}.
Implicit Types (w : world Num Store) (v : value Num) (keys : list string).
Implicit Types (m acc : gmap string (value Num)).

(** The loop, started on the dict [acc], over a backend whose lookups
    answer [g] on every world of [Inv] and keep the world in [Inv]. *)
Lemma get_many_loop_spec (Inv : world Num Store → Prop)
    (g : string → value Num) (tag : value Num) :
  (∀ k w, Inv w → ∃ w', get k VEmpty tag w = (Return (g k), w') ∧ Inv w') →
  ∀ keys acc w, Inv w →
  ∃ m w', get_many_loop keys tag acc w = (Return m, w') ∧ Inv w'
    ∧ ∀ k, m !! k = if bool_decide (k ∈ keys) && negb (is_empty (g k))
                    then Some (g k) else acc !! k.
Proof.
  intros Hget keys. induction keys as [|key keys IH]; intros acc w Hw.
  - exists acc, w. by repeat split.
  - destruct (Hget key w Hw) as (w1 & Hrun & Hw1). simpl.
    rewrite (bind_return _ _ _ _ _ Hrun).
    destruct (IH (if is_empty (g key) then acc else <[key:=g key]> acc)
                 w1 Hw1) as (m & w' & -> & Hw' & Hm).
    exists m, w'. repeat split; [done|]. intros k. rewrite Hm.
    destruct (decide (k = key)) as [->|Hne].
    + rewrite (bool_decide_eq_true_2 (key ∈ key :: keys)) by left.
      destruct (is_empty (g key)) eqn:He; simpl.
      * by rewrite andb_false_r.
      * rewrite andb_true_r, lookup_insert_eq. by case_bool_decide.
    + assert (bool_decide (k ∈ key :: keys) = bool_decide (k ∈ keys)) as ->.
      { apply bool_decide_ext. rewrite elem_of_cons.
        split; [by intros [?|?]|by right]. }
      destruct (bool_decide (k ∈ keys) && negb (is_empty (g k))); [done|].
      destruct (is_empty (g key)); [done|]. by rewrite lookup_insert_ne.
Qed.

(** C7: over a backend whose single-key [get], called with the sentinel
    as default, answers [g k] for the key [k] throughout the call,
    [get_many] returns the dict that binds exactly the keys of the list
    whose answer is not the sentinel, each to its answer; a list with the
    same keys in another order or with other repetitions gives the same
    dict. *)
Theorem get_many_spec (Inv : world Num Store → Prop)
    (g : string → value Num) (tag : value Num) keys w :
  (∀ k w, Inv w → ∃ w', get k VEmpty tag w = (Return (g k), w') ∧ Inv w') →
  Inv w →
  ∃ m w', get_many keys tag w = (Return m, w') ∧ Inv w'
    ∧ (∀ k v, m !! k = Some v ↔ k ∈ keys ∧ g k = v ∧ is_empty v = false)
    ∧ (∀ keys', (∀ k, k ∈ keys ↔ k ∈ keys') →
         ∃ w'', get_many keys' tag w = (Return m, w'') ∧ Inv w'').
Proof.
  intros Hget Hw. unfold get_many.
  destruct (get_many_loop_spec Inv g tag Hget keys ∅ w Hw)
    as (m & w' & Hrun & Hw' & Hm).
  exists m, w'. split; [done|]. split; [done|]. split.
  - intros k v. rewrite Hm, lookup_empty.
    case_bool_decide as Hin; simpl.
    + destruct (is_empty (g k)) eqn:He; simpl.
      * split; [done|]. intros (_ & <- & Hv). congruence.
      * split; [by intros [= <-]|]. by intros (_ & -> & _).
    + split; [done|]. by intros (? & _).
  - intros keys' Hsame.
    destruct (get_many_loop_spec Inv g tag Hget keys' ∅ w Hw)
      as (m' & w'' & Hrun' & Hw'' & Hm').
    exists w''. split; [|done]. rewrite Hrun'. do 2 f_equal.
    apply map_eq. intros k. rewrite Hm, Hm'.
    by rewrite (bool_decide_ext _ _ (Hsame k)).
Qed.

(** A hit: the stored value is returned and the call is the lookup alone,
    whatever the arguments. *)
Lemma wrapper_hit func tag tmo (args : call_args Num) w v w' :
  get (__name__ func) VEmpty tag w = (Return v, w') →
  is_empty v = false →
  wrapper func tag tmo args w = (Return v, w').
Proof.
  intros Hget Hv. unfold wrapper.
  rewrite (bind_return _ _ _ _ _ Hget). by rewrite Hv.
Qed.

(** A miss: the function is invoked on the arguments of the call, its
    result is stored under the same key, timeout and tag, and returned. *)
Lemma wrapper_miss func tag tmo (args : call_args Num) w w' :
  get (__name__ func) VEmpty tag w = (Return VEmpty, w') →
  wrapper func tag tmo args w
  = (r <- invoke func args ;;
     set (__name__ func) r tmo tag ;;; ret r) w'.
Proof.
  intros Hget. unfold wrapper. by rewrite (bind_return _ _ _ _ _ Hget).
Qed.

(** C6: let [deco] be the decorator made by [memoize tag tmo], and let the
    lookup of the name of [func] miss.  If the body of [func], run on the
    arguments [A] of the call, returns [vA], and [set] accepts [vA] under
    that name with [tmo] and [tag], then the call returns [vA]: the wrapper
    has logged and run [func] on [A] and stored the result.  As long as the
    lookup of that name hits with [vA], a call with any arguments [B]
    returns [vA] and is the lookup alone: the body of [func] is not run,
    no call is added to the log and nothing is stored. *)
Theorem memoize_keyed_by_name tag tmo deco func (A B : call_args Num)
    w0 wg wf w1 w2 vA stored :
  memoize tag tmo = Return deco →
  get (__name__ func) VEmpty tag w0 = (Return VEmpty, wg) →
  body func A (logged (__name__ func, A) wg) = (Return vA, wf) →
  set (__name__ func) vA tmo tag wf = (Return stored, w1) →
  get (__name__ func) VEmpty tag w1 = (Return vA, w2) →
  is_empty vA = false →
  deco func A w0 = (Return vA, w1)
  ∧ calls (logged (__name__ func, A) wg) = calls wg ++ [(__name__ func, A)]
  ∧ deco func B w1 = (Return vA, w2)
  ∧ deco func B w1 = get (__name__ func) VEmpty tag w1
  ∧ (calls w2 = calls w1 → calls (deco func B w1).2 = calls w1).
Proof.
  unfold memoize. destruct (callable tag); [done|].
  intros [= <-] Hmiss Hbody Hset Hhit HvA. unfold decorator.
  assert (wrapper func tag tmo B w1 = (Return vA, w2)) as Hsecond
    by by apply wrapper_hit.
  split; [|split; [done|split; [done|split]]].
  - rewrite (wrapper_miss _ _ _ _ _ _ Hmiss).
    unfold invoke, bind. by rewrite Hbody, Hset.
  - by rewrite Hhit.
  - by rewrite Hsecond.
Qed.

(** X21: applied without a call, as in [@cache.memoize], the factory
    receives the function as its tag and refuses it with a [TypeError]. *)
Lemma memoize_callable_tag tag tmo :
  callable tag = true → ∃ e, memoize tag tmo = Raise e ∧ exn_cls e = TypeError.
Proof. intros H. unfold memoize. rewrite H. eauto. Qed.
End ComposedFacts.

(** * Further properties of the contract layer *)

(** ** KeyCodec *)

Lemma rsplit1_present c s : has_char c s = true → is_Some (rsplit1 c s).
Proof.
  induction s as [|x s IH]; simpl; [done|].
  destruct (rsplit1 c s) as [[l r]|]; [by eauto|].
  destruct (Ascii.eqb x c); [by eauto|].
  intros H. by destruct (IH H).
Qed.

Lemma string_length_app a b :
  String.length (a +:+ b) = (String.length a + String.length b)%nat.
Proof. induction a as [|x a IH]; simpl; [done|]. by rewrite IH. Qed.

Section KeyCodecMore.
Context {Num Store : Type} `{!Interp Num} `{!Setting Num}.
Implicit Types (w : world Num Store).

(** X1: [_get_key_tag] returns the key itself, alone, when it holds no
    separator; otherwise it returns two strings that, joined by the
    separator, give the key back, the second of them free of the
    separator. *)
Theorem get_key_tag_shape (s : string) :
  (has_char colon s = false ∧ _get_key_tag s = [s])
  ∨ (∃ l r, _get_key_tag s = [l; r] ∧ s = l +:+ ":" +:+ r
            ∧ has_char colon r = false).
Proof.
  unfold _get_key_tag, rsplit.
  destruct (rsplit1 colon s) as [[l r]|] eqn:E.
  - right. exists l, r. apply rsplit1_inv in E as [-> Hr]. done.
  - left. split; [|done].
    destruct (has_char colon s) eqn:Hs; [|done].
    apply rsplit1_present in Hs as [? Hs]. congruence.
Qed.

(** On a string whose [str] is itself, [make_key_any] is [make_key]. *)
Lemma make_key_any_str (k : string) (tag : option string) :
  py_str (VStr k) = k → make_key_any (VStr k) tag = make_key k tag.
Proof. intros H. unfold make_key_any, make_key. by rewrite H. Qed.


(** X3: [make_and_validate_key] raises exactly what [make_key] raises,
    leaving the world as it was, and returns exactly the key [make_key]
    returns; whatever the key and the tag, it never raises
    [InvalidCacheKey]. *)
Theorem make_and_validate_key_outcomes (key : string) (tag : option string) w :
  (∀ e, make_key key tag = Raise e →
        make_and_validate_key key tag w = (Raise e, w))
  ∧ (∀ sk, make_key key tag = Return sk →
           ∃ w', make_and_validate_key key tag w = (Return sk, w'))
  ∧ (∀ msg, (make_and_validate_key key tag w).1
            ≠ Raise (Exn InvalidCacheKey msg)).
Proof.
  unfold make_and_validate_key. rewrite bind_lift.
  destruct (make_key key tag) as [sk|e] eqn:E.
  - destruct (validate_key_str (Store := Store) sk w) as (w' & Hv & _).
    rewrite (bind_return _ _ _ _ _ Hv). simpl.
    split; [done|]. split; [|done]. intros ? [= <-]. eauto.
  - split; [by intros ? [= <-]|]. split; [done|].
    simpl. intros msg [= ->]. unfold make_key in E.
    destruct tag as [t|]; [|done]. by destruct (has_char colon t).
Qed.

(** X4: for a tag free of the separator, [make_and_validate_key] warns
    exactly when the length of the raw key, plus one, plus the length of
    the tag exceeds [MAX_KEY_LENGTH]; the warning is one [CacheKeyWarning]
    and the key is returned all the same.  Otherwise the world is
    untouched. *)
Theorem make_and_validate_key_warns (key t : string) w :
  has_char colon t = false →
  ∃ w', make_and_validate_key key (Some t) w
        = (Return (key +:+ ":" +:+ t), w')
    ∧ if (Z.of_nat (String.length key + 1 + String.length t)
          >? MAX_KEY_LENGTH)%Z
      then ∃ text, w' = warned (Warn CacheKeyWarning text) w
      else w' = w.
Proof.
  intros Ht. unfold make_and_validate_key.
  rewrite bind_lift, (make_key_ok _ _ Ht).
  assert (String.length (key +:+ ":" +:+ t)
          = (String.length key + 1 + String.length t)%nat) as Hlen.
  { rewrite !string_length_app. simpl. lia. }
  unfold validate_key. rewrite Hlen.
  destruct (_ >? _)%Z; py_simpl; eauto.
Qed.
End KeyCodecMore.

(** ** ConfigValidator *)

Section ConfigMore.
Context {Num Store : Type} `{!Number Num} `{!Setting Num}.
Implicit Types (w : world Num Store) (c : cache Num).
Implicit Types (kwargs : gmap string (value Num)).

(** The three ways a call of [config] can end. *)
Lemma config_cases kwargs w r w' :
  config kwargs w = (r, w') →
  let ev := default (VStr DEFAULT_EVICT) (kwargs !! "evict") in
  let cs := default (VNum DEFAULT_CULL_SIZE) (kwargs !! "cull_size") in
  (∃ e, evict_validator ev = Raise e ∧ r = Raise e ∧ w' = w)
  ∨ (∃ p e, evict_validator ev = Return p ∧ cull_size_validator cs = Raise e
            ∧ r = Raise e ∧ w' = with_evict p w)
  ∨ (∃ p k, evict_validator ev = Return p ∧ cull_size_validator cs = Return k
            ∧ r = Return tt ∧ w' = with_cull_size k (with_evict p w)).
Proof.
  unfold config. unfold bind at 1. rewrite set_evict_spec.
  destruct (evict_validator _) as [p|e] eqn:Ep.
  - rewrite set_cull_size_spec.
    destruct (cull_size_validator _) as [k|e] eqn:Ek; intros [= <- <-].
    + right. right. by exists p, k.
    + right. left. by exists p, e.
  - intros [= <- <-]. left. by exists e.
Qed.

(** X5: however it ends, [config] touches nothing but [evict] and
    [cull_size]: the name, timeout, maximum size, keyword arguments and
    members of the cache, the clock, the warnings, the call log and the
    backend's storage are as before. *)
Theorem config_frame kwargs w r w' :
  config kwargs w = (r, w') →
  _name (self w') = _name (self w)
  ∧ timeout (self w') = timeout (self w)
  ∧ _max_size (self w') = _max_size (self w)
  ∧ _kwargs (self w') = _kwargs (self w)
  ∧ members (self w') = members (self w)
  ∧ clock w' = clock w ∧ warnings w' = warnings w
  ∧ calls w' = calls w ∧ store w' = store w.
Proof.
  intros H. apply config_cases in H as
    [(e & _ & _ & ->)|[(p & e & _ & _ & _ & ->)|(p & k & _ & _ & _ & ->)]];
    done.
Qed.

(** X6: an option other than [evict] and [cull_size] is ignored, silently:
    the call behaves as if it had not been given. *)
Theorem config_ignores_other_options kwargs (opt : string) (v : value Num) w :
  opt ≠ "evict" → opt ≠ "cull_size" →
  config (<[opt := v]> kwargs) w = config kwargs w.
Proof.
  intros H1 H2. unfold config. by rewrite !lookup_insert_ne.
Qed.

(** X7: [config] replaces, it does not merge: after a call that succeeds,
    an option that was not supplied is back at its process-wide default,
    whatever an earlier call had set. *)
Theorem config_resets_unspecified kwargs w w' :
  config kwargs w = (Return tt, w') →
  (kwargs !! "evict" = None → evict (self w') = DEFAULT_EVICT)
  ∧ (kwargs !! "cull_size" = None → cull_size (self w') = DEFAULT_CULL_SIZE).
Proof.
  intros H. apply config_cases in H as
    [(e & _ & [=] & _)|[(p & e & _ & _ & [=] & _)
                       |(p & k & Hp & Hk & _ & ->)]].
  split; intros Hnone; rewrite Hnone in *.
  - unfold evict_validator in Hp.
    apply EnumerateValidate_inv in Hp as [Hv _]. simpl in Hv.
    by injection Hv as ->.
  - unfold cull_size_validator in Hk.
    apply NumberValidate_inv in Hk as [Hv _]. simpl in Hv.
    by injection Hv as ->.
Qed.

(** X8: a call of [config] that succeeded can be repeated with no effect. *)
Theorem config_idempotent kwargs w w' :
  config kwargs w = (Return tt, w') → config kwargs w' = (Return tt, w').
Proof.
  intros H. apply config_cases in H as
    [(e & _ & [=] & _)|[(p & e & _ & _ & [=] & _)
                       |(p & k & Hp & Hk & _ & ->)]].
  unfold config. unfold bind at 1. rewrite set_evict_spec, Hp.
  rewrite set_cull_size_spec, Hk. done.
Qed.

(** X9: the configured policy stays one of the three enumerated names and
    the cull size stays not below zero, whatever options [config] is given
    and whether it returns or raises. *)
Theorem config_keeps_valid kwargs w r w' :
  evict (self w) ∈ [EVICT_LRU; EVICT_FIFO; EVICT_LFU] →
  num_ltb (cull_size (self w)) (num_of_Z 0) = false →
  config kwargs w = (r, w') →
  evict (self w') ∈ [EVICT_LRU; EVICT_FIFO; EVICT_LFU]
  ∧ num_ltb (cull_size (self w')) (num_of_Z 0) = false.
Proof.
  intros He Hc H. apply config_cases in H as
    [(e & _ & _ & ->)|[(p & e & Hp & _ & _ & ->)|(p & k & Hp & Hk & _ & ->)]].
  - done.
  - apply EnumerateValidate_inv in Hp as [_ Hp]. done.
  - apply EnumerateValidate_inv in Hp as [_ Hp].
    apply NumberValidate_inv in Hk as (_ & Hk & _). done.
Qed.

(** X10: a cache that [__init__] returns holds its arguments unchanged, a
    name of 1 to [MAX_KEY_LENGTH] characters, a timeout not below
    [MIN_TIMEOUT] and not above [MAX_TIMEOUT], a maximum size not below
    zero, the default policy, which is one of the three enumerated names,
    and the cull size 10, whatever [DEFAULT_CULL_SIZE] is. *)
Theorem init_validated mem (name tmo max_size : value Num) kwargs c :
  __init__ mem name tmo max_size kwargs = Return c →
  name = VStr (_name c) ∧ tmo = VNum (timeout c)
  ∧ max_size = VNum (_max_size c)
  ∧ (1 ≤ Z.of_nat (String.length (_name c)) ≤ MAX_KEY_LENGTH)%Z
  ∧ num_ltb (timeout c) MIN_TIMEOUT = false
  ∧ num_ltb MAX_TIMEOUT (timeout c) = false
  ∧ num_ltb (_max_size c) (num_of_Z 0) = false
  ∧ evict c = DEFAULT_EVICT
  ∧ DEFAULT_EVICT ∈ [EVICT_LRU; EVICT_FIFO; EVICT_LFU]
  ∧ cull_size c = num_of_Z 10
  ∧ _kwargs c = kwargs ∧ members c = mem.
Proof.
  unfold __init__, and_then.
  destruct (name_validator name) as [n|] eqn:En; [|done].
  destruct (timeout_validator tmo) as [t|] eqn:Et; [|done].
  destruct (max_size_validator max_size) as [m|] eqn:Em; [|done].
  destruct (evict_validator _) as [e|] eqn:Ee; [|done].
  destruct (cull_size_validator _) as [k|] eqn:Ek; [|done].
  intros [= <-]. simpl.
  unfold timeout_validator, max_size_validator, evict_validator,
    cull_size_validator in *.
  apply NumberValidate_inv in Et as (-> & Ht1 & Ht2).
  apply NumberValidate_inv in Em as (-> & Hm & _).
  apply EnumerateValidate_inv in Ee as [[= <-] He].
  apply NumberValidate_inv in Ek as ([= <-] & _ & _).
  unfold name_validator, StringValidate in En.
  destruct name as [| | | |s| |]; try done. simpl in En.
  destruct (Z.ltb_spec (Z.of_nat (String.length s)) 1);
    destruct (Z.ltb_spec MAX_KEY_LENGTH (Z.of_nat (String.length s)));
    try done.
  injection En as <-. repeat split; try done; lia.
Qed.

(** X11: [__init__] refuses the empty name and a name longer than
    [MAX_KEY_LENGTH], before it looks at any other argument. *)
Theorem init_rejects_name mem (s : string) (tmo max_size : value Num) kwargs :
  (String.length s = 0%nat ∨ (Z.of_nat (String.length s) > MAX_KEY_LENGTH)%Z) →
  __init__ mem (VStr s) tmo max_size kwargs = Raise (Exn ValueError None).
Proof.
  intros H. unfold __init__, name_validator, StringValidate. simpl.
  destruct (Z.ltb_spec (Z.of_nat (String.length s)) 1);
    destruct (Z.ltb_spec MAX_KEY_LENGTH (Z.of_nat (String.length s)));
    try done.
  lia.
Qed.

(** X12: [config] does not change how timeouts resolve: after it, returned
    or raised, [get_backend_timeout] gives what it gave before. *)
Theorem config_keeps_timeout kwargs w r w' (arg : option Num) :
  config kwargs w = (r, w') →
  (get_backend_timeout arg w').1 = (get_backend_timeout arg w).1.
Proof.
  intros H. rewrite !get_backend_timeout_resolve. simpl.
  apply config_cases in H as
    [(e & _ & _ & ->)|[(p & e & _ & _ & _ & ->)|(p & k & _ & _ & _ & ->)]];
    done.
Qed.
End ConfigMore.

(** ** EvictionDispatcher *)

Section EvictorMore.
Context {Num Store : Type} `{!Interp Num}.
Implicit Types (w : world Num Store) (v : value Num).

(** X16: whenever reading [evictor] returns, what it returns is callable:
    either the member the policy names, and then the world is untouched, or
    the fallback [object] after exactly one [RuntimeWarning]. *)
Theorem evictor_returns_callable w v w' :
  evictor w = (Return v, w') →
  callable v = true
  ∧ ((members (self w) !! _evict (self w) = Some v ∧ w' = w)
     ∨ (v = VObject ∧ ∃ text, w' = warned (Warn RuntimeWarning text) w)).
Proof.
  unfold evictor, getattr. py_simpl.
  destruct (members (self w) !! _evict (self w)) as [m|] eqn:Hm; simpl.
  - destruct (is_empty m) eqn:He; [intros [= <- <-]; by eauto 6|].
    destruct (callable m) eqn:Hc; simpl.
    + intros [= <- <-]. eauto.
    + destruct (format_s _ _ m); [|done]. intros [= <- <-]. eauto 6.
  - intros [= <- <-]. eauto 6.
Qed.
End EvictorMore.

Section EvictorComposed.
Context {Num Store : Type} `{!Number Num} `{!Setting Num} `{!Interp Num}.
Implicit Types (w : world Num Store).

(** X17: after [config] has accepted a policy, [evictor] hands out the
    backend's method of that name, silently, when the backend has one. *)
Theorem config_then_evictor (kwargs : gmap string (value Num)) w w' f :
  config kwargs w = (Return tt, w') →
  members (self w) !! evict (self w') = Some f → callable f = true →
  evictor w' = (Return f, w').
Proof.
  intros H Hm Hc. apply config_cases in H as
    [(e & _ & [=] & _)|[(p & e & _ & _ & [=] & _)
                       |(p & k & Hp & Hk & _ & ->)]].
  simpl in Hm. unfold evictor, getattr. py_simpl. rewrite Hm. simpl.
  by destruct f.
Qed.
End EvictorComposed.

(** ** BatchCompositor *)

Section BatchMore.
Context {Num Store : Type} `{!Backend Num Store}.
Implicit Types (w : world Num Store) (v : value Num) (keys : list string).
Implicit Types (m acc : gmap string (value Num)).

(** The loop over a concatenation is the loop over the first list followed
    by the loop over the second. *)
Lemma get_many_loop_app keys1 keys2 (tag : value Num) acc w :
  get_many_loop (keys1 ++ keys2) tag acc w
  = (acc' <- get_many_loop keys1 tag acc ;; get_many_loop keys2 tag acc') w.
Proof.
  revert acc w. induction keys1 as [|key keys1 IH]; intros acc w; [done|].
  simpl. unfold bind.
  destruct (get key VEmpty tag w) as [[v|e] w1]; [|done].
  by rewrite IH.
Qed.

(** Started on [acc], the loop returns what it returns started on the empty
    dict, laid over [acc]. *)
Lemma get_many_loop_acc keys (tag : value Num) acc w :
  get_many_loop keys tag acc w
  = match get_many_loop keys tag ∅ w with
    | (Return m, w') => (Return (m ∪ acc), w')
    | (Raise e, w') => (Raise e, w')
    end.
Proof.
  revert acc w. induction keys as [|key keys IH]; intros acc w; simpl.
  - unfold ret. by rewrite (left_id_L ∅ (∪)).
  - unfold bind.
    destruct (get key VEmpty tag w) as [[v|e] w1]; [|done].
    rewrite IH. rewrite (IH (if is_empty v then ∅ else <[key:=v]> ∅)).
    destruct (get_many_loop keys tag ∅ w1) as [[m|e] w2]; [|done].
    f_equal. f_equal. destruct (is_empty v).
    + by rewrite (right_id_L ∅ (∪)).
    + rewrite (insert_union_singleton_l acc), (insert_union_singleton_l ∅).
      by rewrite (right_id_L ∅ (∪)), (assoc_L (∪)).
Qed.

Lemma get_many_loop_sound keys (tag : value Num) acc w m w' k v :
  get_many_loop keys tag acc w = (Return m, w') → m !! k = Some v →
  (k ∈ keys ∧ is_empty v = false) ∨ acc !! k = Some v.
Proof.
  revert acc w. induction keys as [|key keys IH]; intros acc w; simpl.
  - intros [= <- <-]. by right.
  - unfold bind at 1.
    destruct (get key VEmpty tag w) as [[x|e] w1]; [|done].
    intros Hrun Hk. destruct (IH _ _ Hrun Hk) as [[Hin Hv]|Hacc].
    + left. split; [by right|done].
    + destruct (is_empty x) eqn:Hx; [by right|].
      destruct (decide (key = k)) as [->|Hne].
      * rewrite lookup_insert_eq in Hacc. injection Hacc as <-.
        left. split; [by left|done].
      * rewrite lookup_insert_ne in Hacc by done. by right.
Qed.

(** X18: whatever the backend's [get] does, a dict that [get_many] returns
    binds only keys of the list it was given, and binds none of them to
    the sentinel. *)
Theorem get_many_sound keys (tag : value Num) w m w' :
  get_many keys tag w = (Return m, w') →
  ∀ k v, m !! k = Some v → k ∈ keys ∧ is_empty v = false.
Proof.
  intros Hrun k v Hk.
  destruct (get_many_loop_sound _ _ _ _ _ _ _ _ Hrun Hk) as [?|Habs];
    [done|]. by rewrite lookup_empty in Habs.
Qed.

(** X19: fetching a concatenation is fetching the first list and then, in
    the world that leaves, the second; where both dicts bind a key, the
    later lookup wins. *)
Theorem get_many_app keys1 keys2 (tag : value Num) w m1 w1 m2 w2 :
  get_many keys1 tag w = (Return m1, w1) →
  get_many keys2 tag w1 = (Return m2, w2) →
  get_many (keys1 ++ keys2) tag w = (Return (m2 ∪ m1), w2).
Proof.
  unfold get_many. intros H1 H2.
  rewrite get_many_loop_app, (bind_return _ _ _ _ _ H1).
  by rewrite get_many_loop_acc, H2.
Qed.

(** X20: [get_many] stops at the first lookup that raises: the exception
    propagates from the world that lookup left, the keys after it are not
    looked up and what was fetched before is not returned. *)
Theorem get_many_fails_fast keys1 key keys2 (tag : value Num) w m w1 e w2 :
  get_many keys1 tag w = (Return m, w1) →
  get key VEmpty tag w1 = (Raise e, w2) →
  get_many (keys1 ++ key :: keys2) tag w = (Raise e, w2).
Proof.
  unfold get_many. intros H1 H2.
  rewrite get_many_loop_app, (bind_return _ _ _ _ _ H1). simpl.
  by rewrite (bind_raise _ _ _ _ _ H2).
Qed.
End BatchMore.

(** ** Memoizer *)

Section MemoizeMore.
Context {Num Store : Type} `{!Backend Num Store}.
Implicit Types (w : world Num Store) (v : value Num).
Implicit Types (func : pyfunc Num Store) (args : call_args Num).

(** X22: the cache entry is named after the function alone, so two
    functions with the same [__name__], memoized under the same tag, share
    it: while the lookup of that name hits, a call of either returns the
    stored value and runs neither. *)
Theorem memoize_shares_entry_by_name (tag : value Num) tmo tmo' func func'
    args w v w' :
  __name__ func = __name__ func' →
  get (__name__ func) VEmpty tag w = (Return v, w') →
  is_empty v = false →
  decorator tag tmo func args w = (Return v, w')
  ∧ decorator tag tmo' func' args w = (Return v, w').
Proof.
  intros Hname Hget Hv. unfold decorator. split.
  - by apply wrapper_hit.
  - apply wrapper_hit; [|done]. by rewrite <- Hname.
Qed.

(** X23: on a miss, an exception of the function propagates from the world
    the function left: [set] is not called, so nothing is stored. *)
Theorem memoize_function_raises (tag : value Num) tmo func args w w1 e w2 :
  get (__name__ func) VEmpty tag w = (Return VEmpty, w1) →
  invoke func args w1 = (Raise e, w2) →
  decorator tag tmo func args w = (Raise e, w2).
Proof.
  intros Hget Hinv. unfold decorator.
  rewrite (wrapper_miss _ _ _ _ _ _ Hget).
  by rewrite (bind_raise _ _ _ _ _ Hinv).
Qed.

(** X24: on a miss, the wrapper returns what the function returned whether
    [set] reports the value as stored or not; when [set] raises, the
    exception propagates and the computed value is lost. *)
Theorem memoize_store_outcome (tag : value Num) tmo func args w w1 r w2 :
  get (__name__ func) VEmpty tag w = (Return VEmpty, w1) →
  invoke func args w1 = (Return r, w2) →
  (∀ stored w3, set (__name__ func) r tmo tag w2 = (Return stored, w3) →
                decorator tag tmo func args w = (Return r, w3))
  ∧ (∀ e w3, set (__name__ func) r tmo tag w2 = (Raise e, w3) →
             decorator tag tmo func args w = (Raise e, w3)).
Proof.
  intros Hget Hinv. unfold decorator.
  rewrite (wrapper_miss _ _ _ _ _ _ Hget).
  rewrite (bind_return _ _ _ _ _ Hinv).
  split; intros ? w3 Hset.
  - by rewrite (bind_return _ _ _ _ _ Hset).
  - by rewrite (bind_raise _ _ _ _ _ Hset).
Qed.
End MemoizeMore.

Section OverBaseCache.
Context {Num Store : Type}.
Implicit Types (w : world Num Store).

(** X25: on [BaseCache] itself, whose [get] is a stub, [get_many] returns
    the empty dict for the empty list and raises [NotImplementedError] for
    any other; a memoized function raises the same error at every call and
    is never run.  Neither changes the world. *)
Theorem composed_over_base_class (tag : value Num) w :
  let stub := Exn NotImplementedError
                (Some "subclasses of BaseCache must provide a get() method") in
  get_many (Backend0 := BaseCache Num Store) [] tag w = (Return ∅, w)
  ∧ (∀ key keys,
       get_many (Backend0 := BaseCache Num Store) (key :: keys) tag w
       = (Raise stub, w))
  ∧ (∀ tmo func args,
       decorator (Backend0 := BaseCache Num Store) tag tmo func args w
       = (Raise stub, w)).
Proof. by repeat split. Qed.
End OverBaseCache.

(** ** Counters *)

Section DecrFacts.
Context {Num Store : Type} `{!Number Num} `{!Negation Num}
  `{!Counter Num Store}.
Implicit Types (w : world Num Store).

(** X26: over a backend whose [incr] adds [delta] to the number [read]
    finds under the key, stores the sum and returns it, and for numbers on
    which adding [-d] undoes adding [d], [decr] undoes [incr]: after
    [incr(key, d)] then [decr(key, d)] the counter reads what it read, and
    that is what [decr] returns. *)
Theorem decr_undoes_incr (read : world Num Store → option Num)
    (key : string) (tag : value Num) (d n : Num) w :
  (∀ a b, num_add (num_add a b) (num_neg b) = a) →
  (∀ delta u a, read u = Some a →
     ∃ u', incr key delta tag u = (Return (num_add a delta), u')
           ∧ read u' = Some (num_add a delta)) →
  read w = Some n →
  ∃ w1 w2,
    incr key d tag w = (Return (num_add n d), w1)
    ∧ decr key d tag w1 = (Return n, w2)
    ∧ read w2 = Some n.
Proof.
  intros Hneg Hincr Hn.
  destruct (Hincr d w n Hn) as (w1 & H1 & Hr1).
  destruct (Hincr (num_neg d) w1 _ Hr1) as (w2 & H2 & Hr2).
  rewrite Hneg in H2, Hr2. exists w1, w2. done.
Qed.
End DecrFacts.

(** On [BaseCache] itself [decr] raises the [NotImplementedError] of the
    [incr] stub. *)
Lemma decr_over_base_class {Num Store : Type} `{!Negation Num}
    (key : string) (delta : Num) (tag : value Num) (w : world Num Store) :
  decr (Counter0 := BaseCounter Num Store) key delta tag w
  = (Raise (Exn NotImplementedError
              (Some "subclasses of BaseCache must provide a incr() method")),
     w).
Proof. reflexivity. Qed.

(** * Runs on explicit inputs *)

Section Runs.
Import Sample.
#[local] Existing Instances Z_number interp setting dict_backend.
Local Open Scope Z_scope.

(** [make_key('user:1', 'session')] and back. *)
Lemma make_key_roundtrip_run :
  has_char colon "session" = false
  ∧ make_key "user:1" (Some "session") = Return "user:1:session"
  ∧ _get_key_tag "user:1:session" = ["user:1"; "session"].
Proof.
  split; [reflexivity|].
  exact (make_key_roundtrip "user:1" "session" eq_refl).
Defined.

(** [make_key('k', 'a:b')] *)
Lemma make_key_separator_in_tag_run :
  (∃ a b, "a:b" = a +:+ ":" +:+ b)
  ∧ make_key "k" (Some "a:b")
    = Raise (Exn ValueError (Some "The ':' is not expected in tag.")).
Proof.
  assert (∃ a b, "a:b" = a +:+ ":" +:+ b) as H by (by exists "a", "b").
  split; [exact H|]. exact (make_key_separator_in_tag "k" "a:b" H).
Defined.

(** [make_and_validate_key('user:1', 'session')] *)
Lemma make_and_validate_key_run :
  has_char colon "session" = false
  ∧ ∃ w', make_and_validate_key "user:1" (Some "session") world0
          = (Return "user:1:session", w')
          ∧ self w' = self world0 ∧ store w' = store world0
          ∧ ∀ msg, (make_and_validate_key "user:1" (Some "session")
                      world0).1
                   ≠ Raise (Exn InvalidCacheKey msg).
Proof.
  split; [reflexivity|].
  exact (make_and_validate_key_ok "user:1" "session" world0 eq_refl).
Defined.

(** [BaseCache().get_backend_timeout()] at clock reading 1000. *)
Lemma get_backend_timeout_run :
  __init__ ∅ (VStr DEFAULT_NAME) (VNum 300) (VNum DEFAULT_MAX_SIZE) ∅
  = Return (self world0)
  ∧ timeout (self world0) = 300
  ∧ get_backend_timeout (Some DEFAULT_TIMEOUT) world0
    = (Return (Some 1300), world0).
Proof.
  split; [reflexivity|].
  exact (get_backend_timeout_spec ∅ (VStr DEFAULT_NAME) 300
           (VNum DEFAULT_MAX_SIZE) ∅ (Some DEFAULT_TIMEOUT) world0 eq_refl).
Defined.

(** A backend class with the attribute [lru_evict = ()]. *)
Lemma evictor_tuple_member_run :
  members (self world_tuple) !! _evict (self world_tuple)
  = Some (VTuple [])
  ∧ length ([] : list (value Z)) ≠ 1%nat
  ∧ callable (VTuple [] : value Z) = false
  ∧ evictor world_tuple = (Raise (Exn TypeError None), world_tuple).
Proof.
  split; [reflexivity|]. split; [discriminate|].
  exact (evictor_tuple_member_raises [] world_tuple
           eq_refl (λ H : 0%nat = 1%nat, O_S 0 H)).
Defined.

(** C1, as stated, fails: [config(evict='fifo_evict', cull_size=-1)] on a
    fresh cache raises at the second assignment, after [evict] has changed
    from ['lru_evict'] to ['fifo_evict']. *)
Lemma config_not_atomic :
  ∃ e w',
    config {["evict" := VStr "fifo_evict"; "cull_size" := VNum (-1)]} world0
    = (Raise e, w')
    ∧ evict_validator (VStr "fifo_evict") = Return "fifo_evict"
    ∧ cull_size_validator (VNum (-1)) = Raise e
    ∧ evict (self world0) = "lru_evict"
    ∧ evict (self w') = "fifo_evict"
    ∧ cull_size (self w') = cull_size (self world0).
Proof. eexists _, _. repeat split; reflexivity. Qed.

(** [plus_one] memoized under the tag ['t']: called on [1], then on [5].
    The second call returns the [2] of the first, not [6], and the log
    still holds the one call on [1]. *)
Lemma memoize_run :
  let tag := VStr "t" in
  let A : call_args Z := ([VNum 1], ∅) in
  let B : call_args Z := ([VNum 5], ∅) in
  let wf := logged ("plus_one", A) world0 in
  let w1 := World Z (gmap string (value Z)) (cache_of ∅) 1000 []
                  [("plus_one", A)] {["plus_one:t" := VNum 2]} in
  memoize tag None = Return (decorator tag None)
  ∧ get "plus_one" VEmpty tag world0 = (Return VEmpty, world0)
  ∧ body plus_one A wf = (Return (VNum 2), wf)
  ∧ set "plus_one" (VNum 2) None tag wf = (Return true, w1)
  ∧ get "plus_one" VEmpty tag w1 = (Return (VNum 2), w1)
  ∧ is_empty (VNum 2 : value Z) = false
  ∧ body plus_one B w1 = (Return (VNum 6), w1)
  ∧ decorator tag None plus_one A world0 = (Return (VNum 2), w1)
  ∧ calls wf = calls world0 ++ [("plus_one", A)]
  ∧ decorator tag None plus_one B w1 = (Return (VNum 2), w1)
  ∧ decorator tag None plus_one B w1 = get "plus_one" VEmpty tag w1
  ∧ (calls w1 = calls w1 →
     calls (decorator tag None plus_one B w1).2 = calls w1).
Proof.
  intros tag A B wf w1.
  do 7 (split; [reflexivity|]).
  exact (memoize_keyed_by_name tag None (decorator tag None) plus_one A B
           world0 world0 wf w1 w1 (VNum 2) true
           eq_refl eq_refl eq_refl eq_refl eq_refl eq_refl).
Defined.

(** [get_many(['a', 'b', 'a'], 't')] over a dict that holds ['a'] only. *)
Lemma get_many_run :
  let tag := VStr "t" in
  let st : gmap string (value Z) := {["a:t" := VNum 1]} in
  let Inv := λ w : world Z (gmap string (value Z)), store w = st in
  let g := λ k, default VEmpty (st !! (k +:+ ":t")) in
  let keys := ["a"; "b"; "a"]%string in
  let w := world_of ∅ st in
  (∀ k w, Inv w → ∃ w', get k VEmpty tag w = (Return (g k), w') ∧ Inv w')
  ∧ Inv w
  ∧ ∃ m w', get_many keys tag w = (Return m, w') ∧ Inv w'
      ∧ (∀ k v, m !! k = Some v ↔ k ∈ keys ∧ g k = v ∧ is_empty v = false)
      ∧ (∀ keys', (∀ k, k ∈ keys ↔ k ∈ keys') →
           ∃ w'', get_many keys' tag w = (Return m, w'') ∧ Inv w'').
Proof.
  intros tag st Inv g keys w.
  assert (∀ k w, Inv w →
            ∃ w', get k VEmpty tag w = (Return (g k), w') ∧ Inv w') as H.
  { intros k u Hu. exists u. split; [|exact Hu].
    unfold Inv in Hu. unfold g. rewrite <- Hu. reflexivity. }
  split; [exact H|]. split; [reflexivity|].
  exact (get_many_spec Inv g tag keys w H eq_refl).
Defined.

(** The same call, evaluated: ['b'] is missing and ['a'] appears once. *)
Example get_many_run_value :
  get_many ["a"; "b"; "a"]%string (VStr "t") (world_of ∅ {["a:t" := VNum 1]})
  = (Return {["a" := VNum 1]}, world_of ∅ {["a:t" := VNum 1]}).
Proof. reflexivity. Qed.
End Runs.

(** * Further runs on explicit inputs *)

Section MoreRuns.
Import Sample.
#[local] Existing Instances Z_number interp setting dict_backend.
#[local] Existing Instances Z_negation dict_counter.
Local Open Scope Z_scope.


(** A key of 14 characters, far below the 1024 allowed. *)
Lemma make_and_validate_key_warns_run :
  has_char colon "session" = false
  ∧ ∃ w', make_and_validate_key "user:1" (Some "session") world0
          = (Return "user:1:session", w')
          ∧ w' = world0.
Proof.
  split; [reflexivity|].
  exact (make_and_validate_key_warns "user:1" "session" world0 eq_refl).
Defined.

(** [config(evict='fifo_evict')] on a fresh cache. *)
Lemma config_frame_run :
  config {["evict" := VStr "fifo_evict"]} world0
  = (Return tt, with_evict "fifo_evict" world0)
  ∧ _name (self (with_evict "fifo_evict" world0)) = _name (self world0)
  ∧ timeout (self (with_evict "fifo_evict" world0)) = timeout (self world0)
  ∧ _max_size (self (with_evict "fifo_evict" world0))
    = _max_size (self world0)
  ∧ _kwargs (self (with_evict "fifo_evict" world0)) = _kwargs (self world0)
  ∧ members (self (with_evict "fifo_evict" world0)) = members (self world0)
  ∧ clock (with_evict "fifo_evict" world0) = clock world0
  ∧ warnings (with_evict "fifo_evict" world0) = warnings world0
  ∧ calls (with_evict "fifo_evict" world0) = calls world0
  ∧ store (with_evict "fifo_evict" world0) = store world0.
Proof.
  split; [reflexivity|].
  exact (config_frame {["evict" := VStr "fifo_evict"]} world0 (Return tt)
           (with_evict "fifo_evict" world0) eq_refl).
Defined.

(** [config(evcit='fifo_evict')]: the misspelt option is dropped. *)
Lemma config_ignores_other_options_run :
  "evcit" ≠ "evict" ∧ "evcit" ≠ "cull_size"
  ∧ config (<["evcit" := VStr "fifo_evict"]> ∅) world0 = config ∅ world0.
Proof.
  assert ("evcit" ≠ "evict") as H1 by discriminate.
  assert ("evcit" ≠ "cull_size") as H2 by discriminate.
  split; [exact H1|]. split; [exact H2|].
  exact (config_ignores_other_options ∅ "evcit" (VStr "fifo_evict") world0
           H1 H2).
Defined.

(** [config(cull_size=3)] and then [config(evict='fifo_evict')]: the cull
    size is back at 10. *)
Lemma config_resets_unspecified_run :
  config {["evict" := VStr "fifo_evict"]} (with_cull_size 3 world0)
  = (Return tt, with_evict "fifo_evict" world0)
  ∧ (({["evict" := VStr "fifo_evict"]} : gmap string (value Z)) !! "evict"
     = None → evict (self (with_evict "fifo_evict" world0)) = DEFAULT_EVICT)
  ∧ (({["evict" := VStr "fifo_evict"]} : gmap string (value Z))
       !! "cull_size" = None →
     cull_size (self (with_evict "fifo_evict" world0)) = DEFAULT_CULL_SIZE).
Proof.
  split; [reflexivity|].
  exact (config_resets_unspecified {["evict" := VStr "fifo_evict"]}
           (with_cull_size 3 world0) (with_evict "fifo_evict" world0)
           eq_refl).
Defined.

(** [config(evict='fifo_evict')], twice. *)
Lemma config_idempotent_run :
  config {["evict" := VStr "fifo_evict"]} world0
  = (Return tt, with_evict "fifo_evict" world0)
  ∧ config {["evict" := VStr "fifo_evict"]} (with_evict "fifo_evict" world0)
    = (Return tt, with_evict "fifo_evict" world0).
Proof.
  split; [reflexivity|].
  exact (config_idempotent {["evict" := VStr "fifo_evict"]} world0
           (with_evict "fifo_evict" world0) eq_refl).
Defined.

(** [config(evict='fifo_evict', cull_size=-1)], which raises half-way. *)
Lemma config_keeps_valid_run :
  evict (self world0) ∈ [EVICT_LRU; EVICT_FIFO; EVICT_LFU]
  ∧ num_ltb (cull_size (self world0)) (num_of_Z 0) = false
  ∧ config {["evict" := VStr "fifo_evict"; "cull_size" := VNum (-1)]} world0
    = (Raise (Exn ValueError None), with_evict "fifo_evict" world0)
  ∧ evict (self (with_evict "fifo_evict" world0))
    ∈ [EVICT_LRU; EVICT_FIFO; EVICT_LFU]
  ∧ num_ltb (cull_size (self (with_evict "fifo_evict" world0))) (num_of_Z 0)
    = false.
Proof.
  assert (evict (self world0) ∈ [EVICT_LRU; EVICT_FIFO; EVICT_LFU]) as H
    by apply list_elem_of_here.
  split; [exact H|]. split; [reflexivity|]. split; [reflexivity|].
  exact (config_keeps_valid
           {["evict" := VStr "fifo_evict"; "cull_size" := VNum (-1)]}
           world0 (Raise (Exn ValueError None))
           (with_evict "fifo_evict" world0) H eq_refl eq_refl).
Defined.

(** [BaseCache()] *)
Lemma init_validated_run :
  __init__ ∅ (VStr DEFAULT_NAME) (VNum DEFAULT_TIMEOUT)
    (VNum DEFAULT_MAX_SIZE) ∅ = Return (cache_of ∅)
  ∧ evict (cache_of ∅) = "lru_evict" ∧ cull_size (cache_of ∅) = 10.
Proof.
  split; [reflexivity|].
  pose proof (init_validated ∅ (VStr DEFAULT_NAME) (VNum DEFAULT_TIMEOUT)
                (VNum DEFAULT_MAX_SIZE) ∅ (cache_of ∅) eq_refl) as H.
  split; [exact (proj1 (proj2 (proj2 (proj2 (proj2 (proj2 (proj2 (proj2 H))))))))|].
  exact (proj1 (proj2 (proj2 (proj2 (proj2 (proj2 (proj2 (proj2 (proj2 (proj2 H)))))))))).
Defined.

(** [BaseCache(name='')] *)
Lemma init_rejects_name_run :
  (String.length "" = 0%nat
   ∨ (Z.of_nat (String.length "") > MAX_KEY_LENGTH))
  ∧ __init__ ∅ (VStr "") (VNum 300) (VNum 1024) ∅
    = Raise (Exn ValueError None).
Proof.
  split; [by left|].
  exact (init_rejects_name ∅ "" (VNum 300) (VNum 1024) ∅ (or_introl eq_refl)).
Defined.

(** The timeout of a cache, before and after [config(evict='fifo_evict')]. *)
Lemma config_keeps_timeout_run :
  config {["evict" := VStr "fifo_evict"]} world0
  = (Return tt, with_evict "fifo_evict" world0)
  ∧ (get_backend_timeout (Some 300) (with_evict "fifo_evict" world0)).1
    = (get_backend_timeout (Some 300) world0).1.
Proof.
  split; [reflexivity|].
  exact (config_keeps_timeout {["evict" := VStr "fifo_evict"]} world0
           (Return tt) (with_evict "fifo_evict" world0) (Some 300) eq_refl).
Defined.

(** A backend without [lru_evict]. *)
Lemma evictor_missing_run :
  members (self world0) !! _evict (self world0) = None
  ∧ ∃ text, evictor world0
            = (Return VObject, warned (Warn RuntimeWarning text) world0)
            ∧ callable (VObject : value Z) = true.
Proof. split; [reflexivity|]. exact (evictor_missing world0 eq_refl). Defined.

(** A backend with the method [lru_evict]. *)
Lemma evictor_found_run :
  members (self world_lru) !! _evict (self world_lru)
  = Some (VFunc "lru_evict")
  ∧ callable (VFunc "lru_evict" : value Z) = true
  ∧ evictor world_lru = (Return (VFunc "lru_evict"), world_lru).
Proof.
  split; [reflexivity|]. split; [reflexivity|].
  exact (evictor_found (VFunc "lru_evict") world_lru eq_refl eq_refl).
Defined.

(** A backend with the attribute [lru_evict = 5]. *)
Lemma evictor_not_callable_run :
  members (self world_number) !! _evict (self world_number) = Some (VNum 5)
  ∧ callable (VNum 5 : value Z) = false
  ∧ is_empty (VNum 5 : value Z) = false
  ∧ formattable (VNum 5 : value Z) = true
  ∧ ∃ text, evictor world_number
            = (Return VObject, warned (Warn RuntimeWarning text) world_number).
Proof.
  do 4 (split; [reflexivity|]).
  exact (evictor_not_callable (VNum 5) world_number
           eq_refl eq_refl eq_refl eq_refl).
Defined.

Lemma evictor_returns_callable_run :
  evictor world_lru = (Return (VFunc "lru_evict"), world_lru)
  ∧ callable (VFunc "lru_evict" : value Z) = true
  ∧ ((members (self world_lru) !! _evict (self world_lru)
      = Some (VFunc "lru_evict") ∧ world_lru = world_lru)
     ∨ (VFunc "lru_evict" = (VObject : value Z)
        ∧ ∃ text, world_lru = warned (Warn RuntimeWarning text) world_lru)).
Proof.
  split; [reflexivity|].
  exact (evictor_returns_callable world_lru (VFunc "lru_evict") world_lru
           eq_refl).
Defined.

(** [config()] and then [evictor], on a backend with [lru_evict]. *)
Lemma config_then_evictor_run :
  config ∅ world_lru = (Return tt, world_lru)
  ∧ members (self world_lru) !! evict (self world_lru)
    = Some (VFunc "lru_evict")
  ∧ callable (VFunc "lru_evict" : value Z) = true
  ∧ evictor world_lru = (Return (VFunc "lru_evict"), world_lru).
Proof.
  do 3 (split; [reflexivity|]).
  exact (config_then_evictor ∅ world_lru world_lru (VFunc "lru_evict")
           eq_refl eq_refl eq_refl).
Defined.

(** [get_many(['a', 'b'], 't')] over a dict that holds ['a'] only. *)
Lemma get_many_sound_run :
  get_many ["a"; "b"]%string (VStr "t") (world_of ∅ {["a:t" := VNum 1]})
  = (Return {["a" := VNum 1]}, world_of ∅ {["a:t" := VNum 1]})
  ∧ ∀ k v, ({["a" := VNum 1]} : gmap string (value Z)) !! k = Some v →
           k ∈ ["a"; "b"]%string ∧ is_empty v = false.
Proof.
  split; [reflexivity|].
  exact (get_many_sound ["a"; "b"]%string (VStr "t")
           (world_of ∅ {["a:t" := VNum 1]}) {["a" := VNum 1]}
           (world_of ∅ {["a:t" := VNum 1]}) eq_refl).
Defined.

(** [get_many(['a'] + ['b', 'a'], 't')] over a dict that holds both. *)
Lemma get_many_app_run :
  get_many ["a"]%string (VStr "t")
    (world_of ∅ {["a:t" := VNum 1; "b:t" := VNum 2]})
  = (Return {["a" := VNum 1]},
     world_of ∅ {["a:t" := VNum 1; "b:t" := VNum 2]})
  ∧ get_many ["b"; "a"]%string (VStr "t")
      (world_of ∅ {["a:t" := VNum 1; "b:t" := VNum 2]})
    = (Return {["a" := VNum 1; "b" := VNum 2]},
       world_of ∅ {["a:t" := VNum 1; "b:t" := VNum 2]})
  ∧ get_many (["a"%string] ++ ["b"%string; "a"%string])%list (VStr "t")
      (world_of ∅ {["a:t" := VNum 1; "b:t" := VNum 2]})
    = (Return ({["a" := VNum 1; "b" := VNum 2]} ∪ {["a" := VNum 1]}),
       world_of ∅ {["a:t" := VNum 1; "b:t" := VNum 2]}).
Proof.
  split; [reflexivity|]. split; [reflexivity|].
  exact (get_many_app ["a"]%string ["b"; "a"]%string (VStr "t")
           (world_of ∅ {["a:t" := VNum 1; "b:t" := VNum 2]})
           {["a" := VNum 1]} _ {["a" := VNum 1; "b" := VNum 2]} _
           eq_refl eq_refl).
Defined.

(** [get_many(['a', 'b'], 5)]: the dict backend refuses the tag [5]. *)
Lemma get_many_fails_fast_run :
  get_many [] (VNum 5) world0 = (Return ∅, world0)
  ∧ get "a" VEmpty (VNum 5) world0 = (Raise (Exn TypeError None), world0)
  ∧ get_many ([] ++ "a"%string :: ["b"%string])%list (VNum 5) world0
    = (Raise (Exn TypeError None), world0).
Proof.
  split; [reflexivity|]. split; [reflexivity|].
  exact (get_many_fails_fast [] "a" ["b"]%string (VNum 5) world0 ∅ world0
           (Exn TypeError None) world0 eq_refl eq_refl).
Defined.

(** [@cache.memoize] without the call: the function arrives as the tag. *)
Lemma memoize_callable_tag_run :
  callable (VFunc "first" : value Z) = true
  ∧ ∃ e, memoize (VFunc "first") None = Raise e ∧ exn_cls e = TypeError.
Proof.
  split; [reflexivity|].
  exact (memoize_callable_tag (VFunc "first") None eq_refl).
Defined.

(** Two functions named [first], one entry. *)
Lemma memoize_shares_entry_by_name_run :
  __name__ first = __name__ first'
  ∧ get "first" VEmpty (VStr "t") (world_of ∅ {["first:t" := VNum 1]})
    = (Return (VNum 1), world_of ∅ {["first:t" := VNum 1]})
  ∧ is_empty (VNum 1 : value Z) = false
  ∧ decorator (VStr "t") None first ([VNum 2], ∅)
      (world_of ∅ {["first:t" := VNum 1]})
    = (Return (VNum 1), world_of ∅ {["first:t" := VNum 1]})
  ∧ decorator (VStr "t") None first' ([VNum 2], ∅)
      (world_of ∅ {["first:t" := VNum 1]})
    = (Return (VNum 1), world_of ∅ {["first:t" := VNum 1]}).
Proof.
  do 3 (split; [reflexivity|]).
  exact (memoize_shares_entry_by_name (VStr "t") None None first first'
           ([VNum 2], ∅) (world_of ∅ {["first:t" := VNum 1]}) (VNum 1)
           (world_of ∅ {["first:t" := VNum 1]}) eq_refl eq_refl eq_refl).
Defined.

(** A memoized function that raises. *)
Lemma memoize_function_raises_run :
  get "boom" VEmpty (VStr "t") world0 = (Return VEmpty, world0)
  ∧ invoke boom ([], ∅) world0
    = (Raise (Exn ValueError None), logged ("boom", ([], ∅)) world0)
  ∧ decorator (VStr "t") None boom ([], ∅) world0
    = (Raise (Exn ValueError None), logged ("boom", ([], ∅)) world0).
Proof.
  do 2 (split; [reflexivity|]).
  exact (memoize_function_raises (VStr "t") None boom ([], ∅) world0 world0
           (Exn ValueError None) (logged ("boom", ([], ∅)) world0)
           eq_refl eq_refl).
Defined.

(** A first call of [first], on [1]. *)
Lemma memoize_store_outcome_run :
  get "first" VEmpty (VStr "t") world0 = (Return VEmpty, world0)
  ∧ invoke first ([VNum 1], ∅) world0
    = (Return (VNum 1), logged ("first", ([VNum 1], ∅)) world0)
  ∧ (∀ stored w3,
       set "first" (VNum 1) None (VStr "t")
         (logged ("first", ([VNum 1], ∅)) world0) = (Return stored, w3) →
       decorator (VStr "t") None first ([VNum 1], ∅) world0
       = (Return (VNum 1), w3))
  ∧ (∀ e w3,
       set "first" (VNum 1) None (VStr "t")
         (logged ("first", ([VNum 1], ∅)) world0) = (Raise e, w3) →
       decorator (VStr "t") None first ([VNum 1], ∅) world0 = (Raise e, w3)).
Proof.
  do 2 (split; [reflexivity|]).
  exact (memoize_store_outcome (VStr "t") None first ([VNum 1], ∅) world0
           world0 (VNum 1) (logged ("first", ([VNum 1], ∅)) world0)
           eq_refl eq_refl).
Defined.

(** [incr('hits', 3, 't')] then [decr('hits', 3, 't')] on a counter at 5. *)
Lemma decr_undoes_incr_run :
  (∀ a b : Z, num_add (num_add a b) (num_neg b) = a)
  ∧ (∀ delta u a, read_hits u = Some a →
       ∃ u', incr "hits" delta (VStr "t") u = (Return (num_add a delta), u')
             ∧ read_hits u' = Some (num_add a delta))
  ∧ read_hits (world_of ∅ {["hits:t" := VNum 5]}) = Some 5
  ∧ ∃ w1 w2,
      incr "hits" 3 (VStr "t") (world_of ∅ {["hits:t" := VNum 5]})
      = (Return (num_add 5 3), w1)
      ∧ decr "hits" 3 (VStr "t") w1 = (Return 5, w2)
      ∧ read_hits w2 = Some 5.
Proof.
  assert (∀ a b : Z, num_add (num_add a b) (num_neg b) = a) as Hneg.
  { intros a b. simpl. lia. }
  assert (∀ delta u a, read_hits u = Some a →
            ∃ u', incr "hits" delta (VStr "t") u
                  = (Return (num_add a delta), u')
                  ∧ read_hits u' = Some (num_add a delta)) as Hincr.
  { intros delta u a. unfold read_hits. cbn [incr dict_counter].
    rewrite bind_lift.
    change (dict_key "hits" (VStr "t")) with (@Return string "hits:t").
    cbv beta iota.
    destruct (store u !! "hits:t") as [[| | |n| | |]|]; try done.
    intros [= ->]. eexists. split; [reflexivity|].
    simpl. by rewrite lookup_insert_eq. }
  split; [exact Hneg|]. split; [exact Hincr|]. split; [reflexivity|].
  exact (decr_undoes_incr read_hits "hits" (VStr "t") 3 5
           (world_of ∅ {["hits:t" := VNum 5]}) Hneg Hincr eq_refl).
Defined.
End MoreRuns.
